(** * jupyter-shell: a shallow embedding of [main.go]

    The client of [main.go] provisions a terminal on a Jupyter server over
    HTTP, dials a WebSocket to it, relays frames to the console in a receive
    loop and sends the user's commands.  This file embeds the client in
    Rocq and proves properties of provisioning, of the connection target,
    of the receive loop, of [SendCommand], of [Close] and of [main].

    Effects are modelled as a trace of the calls the program makes on its
    environment (HTTP, WebSocket, console, clock, process exit); what those
    calls answer is given by an environment [Env], a function of the
    history.  Functions of Go's libraries that the client calls
    ([encoding/json], [net/url], [net/http]) are parameters. *)

From Stdlib Require Import ZArith.
From stdpp Require Import gmap strings list fin_maps.

Local Open Scope string_scope.
Local Open Scope list_scope.
Local Open Scope stdpp_scope.

(** ** Strings: the functions of package [strings] that the client uses *)

Module strings.

(** [strings.HasSuffix]:
    [len(s) >= len(suffix) && s[len(s)-len(suffix):] == suffix]. *)
Definition HasSuffix (s suffix : string) : bool :=
  (String.length suffix <=? String.length s)%nat
  && String.eqb
       (String.substring (String.length s - String.length suffix)
                         (String.length suffix) s)
       suffix.

(** [strings.TrimSuffix]: [s] without the trailing [suffix], or [s]. *)
Definition TrimSuffix (s suffix : string) : string :=
  if HasSuffix s suffix
  then String.substring 0 (String.length s - String.length suffix) s
  else s.

(** [strings.Join]. *)
Definition Join (elems : list string) (sep : string) : string :=
  String.concat sep elems.

End strings.

(** ** Values *)

(** A Go [error]: the text of [Error()], and the close code when the
    dynamic type is [*websocket.CloseError]. *)
Record error := mkError { Error : string; CloseCode : option Z }.

Definition fmt_Errorf (text : string) : error :=
  {| Error := text; CloseCode := None |}.

Inductive result (A : Type) : Type :=
| Ok (a : A)
| Err (e : error).
Arguments Ok {A} a.
Arguments Err {A} e.

(** A byte slice. *)
Definition bytes := string.

(** What [encoding/json] stores in an [interface{}]. *)
#[warnings="-register-all"]
Inductive Value : Type :=
| VNil
| VBool (b : bool)
| VFloat64 (bits : Z)
| VString (s : string)
| VArray (elems : list Value)
| VObject (fields : gmap string Value).

(** [type Message []interface{}] *)
Definition Message := list Value.

(** The line feed, Go's ["\n"]. *)
Definition LF : string := String (Ascii.ascii_of_nat 10) EmptyString.

(** [url.Values], [http.Header]: [map[string][]string]. *)
Definition Values := gmap string (list string).

(** [func (v Values) Set(key, value string) { v[key] = []string{value} }] *)
Definition Values_Set (v : Values) (key value : string) : Values :=
  <[key := [value]]> v.

(** [url.URL] *)
Record URL := mkURL {
  Scheme : string;
  Opaque : string;
  User : option string;
  Host : string;
  Path : string;
  RawPath : string;
  OmitHost : bool;
  ForceQuery : bool;
  RawQuery : string;
  Fragment : string;
  RawFragment : string
}.

Definition set_Scheme (v : string) (u : URL) : URL :=
  mkURL v (Opaque u) (User u) (Host u) (Path u) (RawPath u) (OmitHost u)
        (ForceQuery u) (RawQuery u) (Fragment u) (RawFragment u).
Definition set_Path (v : string) (u : URL) : URL :=
  mkURL (Scheme u) (Opaque u) (User u) (Host u) v (RawPath u) (OmitHost u)
        (ForceQuery u) (RawQuery u) (Fragment u) (RawFragment u).
Definition set_RawQuery (v : string) (u : URL) : URL :=
  mkURL (Scheme u) (Opaque u) (User u) (Host u) (Path u) (RawPath u)
        (OmitHost u) (ForceQuery u) v (Fragment u) (RawFragment u).

(** [http.Request], as far as the client fills it in. *)
Record Request := mkRequest {
  Method : string;
  ReqURL : string;
  Header : Values
}.

(** [http.Response]; [Body] is what reading the body to its end yields. *)
Record Response := mkResponse {
  Status : string;
  StatusCode : Z;
  Body : bytes
}.

Definition http_StatusOK : Z := 200%Z.
Definition http_StatusCreated : Z := 201%Z.

(** Package [websocket]. *)
Definition websocket_TextMessage : Z := 1%Z.
Definition websocket_CloseGoingAway : Z := 1001%Z.
Definition websocket_CloseAbnormalClosure : Z := 1006%Z.

(** [websocket.IsUnexpectedCloseError]: [err] is a [*CloseError] whose
    code is not one of [expectedCodes]. *)
Definition websocket_IsUnexpectedCloseError
    (err : error) (expectedCodes : list Z) : bool :=
  match CloseCode err with
  | Some code => negb (existsb (Z.eqb code) expectedCodes)
  | None => false
  end.

(** Package [time]: a [Duration] counts nanoseconds. *)
Definition time_Millisecond : Z := 1000000%Z.
Definition time_Second : Z := (1000 * time_Millisecond)%Z.

(** A [*websocket.Conn] that is not nil: the handle of a connection. *)
Definition Conn := nat.

(** [type JupyterClient struct]; a nil [conn] is [None]. *)
Record JupyterClient := mkClient {
  baseURL : string;
  token : string;
  terminalID : string;
  conn : option Conn
}.

Definition set_terminalID (v : string) (c : JupyterClient) : JupyterClient :=
  mkClient (baseURL c) (token c) v (conn c).
Definition set_conn (v : option Conn) (c : JupyterClient) : JupyterClient :=
  mkClient (baseURL c) (token c) (terminalID c) v.

(** [NewJupyterClient]: the fields left out of the literal hold Go's zero
    values. *)
Definition NewJupyterClient (baseURL token : string) : JupyterClient :=
  {| baseURL := strings.TrimSuffix baseURL "/";
     token := token;
     terminalID := "";
     conn := None |}.

(** ** The environment *)

(** The calls of the program on the world outside it. *)
Inductive Event : Type :=
| EvStdout (text : string)
| EvLog (text : string)
| EvSleep (d : Z)
| EvHttpDo (req : Request)
| EvBodyClose
| EvDial (urlStr : string)
| EvGoReadMessages
| EvScan
| EvWrite (k : Conn) (messageType : Z) (data : bytes)
| EvClose (k : Conn)
| EvRead (k : Conn).

Definition Trace := list Event.

(** What the world answers, given the calls made so far.  A nil [error] is
    [None]. *)
Record Env := mkEnv {
  client_Do : Trace -> Request -> result Response;
  dialer_Dial : Trace -> string -> result Conn;
  conn_WriteMessage : Trace -> Conn -> Z -> bytes -> option error;
  conn_Close : Trace -> Conn -> option error
}.

(** The functions of Go's libraries that the client calls on its data. *)
Record Lib := mkLib {
  http_NewRequest : string -> string -> result Request;
  json_Decode : bytes -> result (gmap string Value);
  json_Unmarshal : bytes -> result Message;
  json_Marshal : Message -> result bytes;
  url_Parse : string -> result URL;
  url_ParseQuery : string -> Values;
  Values_Encode : Values -> string;
  URL_String : URL -> string
}.

(** [func (u *URL) Query() Values]: the parsed [RawQuery]. *)
Definition URL_Query (L : Lib) (u : URL) : Values :=
  url_ParseQuery L (RawQuery u).

(** ** Computations *)

(** How a function ends: it returns, the process exits ([os.Exit], which
    runs no deferred call), or it panics. *)
Inductive Outcome (A : Type) : Type :=
| Ret (a : A)
| Exit (code : Z)
| Panic (reason : string).
Arguments Ret {A} a.
Arguments Exit {A} code.
Arguments Panic {A} reason.

(** A method of [*JupyterClient]: it reads and writes the receiver and
    extends the trace. *)
Definition M (A : Type) : Type :=
  JupyterClient -> Trace -> Outcome A * JupyterClient * Trace.

Definition ret {A} (a : A) : M A := fun c tr => (Ret a, c, tr).

Definition bind {A B} (m : M A) (f : A -> M B) : M B :=
  fun c tr =>
    match m c tr with
    | (Ret a, c', tr') => f a c' tr'
    | (Exit code, c', tr') => (Exit code, c', tr')
    | (Panic reason, c', tr') => (Panic reason, c', tr')
    end.

#[global] Instance M_ret : MRet M := @ret.
#[global] Instance M_bind : MBind M := fun A B f m => bind m f.

(** [defer d] in front of [body]: [d] runs when [body] returns or panics,
    its result is dropped; it does not run when the process exits. *)
Definition defer {A B} (d : M B) (body : M A) : M A :=
  fun c tr =>
    match body c tr with
    | (Ret a, c', tr') =>
        match d c' tr' with
        | (Ret _, c'', tr'') => (Ret a, c'', tr'')
        | (Exit code, c'', tr'') => (Exit code, c'', tr'')
        | (Panic reason, c'', tr'') => (Panic reason, c'', tr'')
        end
    | (Exit code, c', tr') => (Exit code, c', tr')
    | (Panic reason, c', tr') =>
        match d c' tr' with
        | (Exit code, c'', tr'') => (Exit code, c'', tr'')
        | (Panic reason', c'', tr'') => (Panic reason', c'', tr'')
        | (Ret _, c'', tr'') => (Panic reason, c'', tr'')
        end
    end.

Definition self : M JupyterClient := fun c tr => (Ret c, c, tr).
Definition modify (f : JupyterClient -> JupyterClient) : M unit :=
  fun c tr => (Ret tt, f c, tr).
Definition emit (e : Event) : M unit := fun c tr => (Ret tt, c, tr ++ [e]).
Definition os_Exit {A} (code : Z) : M A := fun c tr => (Exit code, c, tr).
Definition panic {A} (reason : string) : M A :=
  fun c tr => (Panic reason, c, tr).

Definition fmt_Print (text : string) : M unit := emit (EvStdout text).
Definition fmt_Println (text : string) : M unit :=
  emit (EvStdout (text +:+ LF)).
Definition log_Print (text : string) : M unit := emit (EvLog text).
(** [log.Fatalf]: print, then [os.Exit(1)]. *)
Definition log_Fatal {A} (text : string) : M A :=
  log_Print text;; os_Exit 1%Z.
Definition time_Sleep (d : Z) : M unit := emit (EvSleep d).

(** ** The client *)

Section Client.

Context (L : Lib) (E : Env).

(** The calls that the environment answers. *)
Definition call_Do (req : Request) : M (result Response) :=
  fun c tr => (Ret (client_Do E tr req), c, tr ++ [EvHttpDo req]).
Definition call_Dial (urlStr : string) : M (result Conn) :=
  fun c tr => (Ret (dialer_Dial E tr urlStr), c, tr ++ [EvDial urlStr]).
Definition call_WriteMessage (k : Conn) (messageType : Z) (data : bytes)
    : M (option error) :=
  fun c tr => (Ret (conn_WriteMessage E tr k messageType data), c,
               tr ++ [EvWrite k messageType data]).
Definition call_Close (k : Conn) : M (option error) :=
  fun c tr => (Ret (conn_Close E tr k), c, tr ++ [EvClose k]).

(** [req.Header.Set(key, value)] *)
Definition Header_Set (req : Request) (key value : string) : Request :=
  mkRequest (Method req) (ReqURL req) (Values_Set (Header req) key value).

(** [func (c *JupyterClient) CreateTerminal() error] *)
Definition CreateTerminal : M (option error) :=
  c ← self;
  let url := baseURL c +:+ "/api/terminals" in
  match http_NewRequest L "POST" url with
  | Err err => mret (Some err)
  | Ok req =>
      let req :=
        if negb (String.eqb (token c) "")
        then Header_Set req "Authorization" ("token " +:+ token c)
        else req in
      r ← call_Do req;
      match r with
      | Err err => mret (Some err)
      | Ok resp =>
          defer (emit EvBodyClose)
            (if negb (StatusCode resp =? http_StatusOK)%Z
                && negb (StatusCode resp =? http_StatusCreated)%Z
             then
               let body := Body resp in
               mret (Some (fmt_Errorf ("failed to create terminal: "
                                       +:+ Status resp +:+ " - " +:+ body)))
             else
               match json_Decode L (Body resp) with
               | Err err => mret (Some err)
               | Ok result =>
                   match result !! "name" with
                   | Some (VString name) =>
                       modify (set_terminalID name);;
                       c ← self;
                       fmt_Print ("Created terminal: " +:+ terminalID c
                                  +:+ LF);;
                       mret None
                   | _ =>
                       mret (Some (fmt_Errorf
                                     "terminal ID not found in response"))
                   end
               end)
      end
  end.

(** [func (c *JupyterClient) Connect() error] *)
Definition Connect : M (option error) :=
  c ← self;
  match url_Parse L (baseURL c) with
  | Err err => mret (Some err)
  | Ok u =>
      let u :=
        if String.eqb (Scheme u) "https"
        then set_Scheme "wss" u
        else set_Scheme "ws" u in
      let u := set_Path ("/terminals/websocket/" +:+ terminalID c) u in
      let u :=
        if negb (String.eqb (token c) "")
        then
          let q := URL_Query L u in
          let q := Values_Set q "token" (token c) in
          set_RawQuery (Values_Encode L q) u
        else u in
      fmt_Print ("Connecting to: " +:+ URL_String L u +:+ LF);;
      r ← call_Dial (URL_String L u);
      match r with
      | Err err =>
          mret (Some (fmt_Errorf ("websocket dial error: " +:+ Error err)))
      | Ok k =>
          modify (set_conn (Some k));;
          mret None
      end
  end.

(** [func (c *JupyterClient) SendCommand(cmd string) error];
    a call of a method on the nil [c.conn] panics. *)
Definition SendCommand (cmd : string) : M (option error) :=
  let cmd := if negb (strings.HasSuffix cmd LF) then cmd +:+ LF else cmd in
  let msg : Message := [VString "stdin"; VString cmd] in
  match json_Marshal L msg with
  | Err err => mret (Some err)
  | Ok data =>
      c ← self;
      match conn c with
      | None => panic "invalid memory address or nil pointer dereference"
      | Some k => call_WriteMessage k websocket_TextMessage data
      end
  end.

(** [func (c *JupyterClient) Close() error] *)
Definition Close : M (option error) :=
  c ← self;
  match conn c with
  | Some k =>
      SendCommand "exit";;
      time_Sleep (500 * time_Millisecond)%Z;;
      call_Close k
  | None => mret None
  end.

(** The loop of [InteractiveShell]; [stdin] holds the lines that the
    scanner will yield before [Scan] returns false. *)
Fixpoint InteractiveShell_loop (stdin : list string) : M unit :=
  fmt_Print (LF +:+ "$ ");;
  emit EvScan;;
  match stdin with
  | [] => mret tt
  | cmd :: stdin' =>
      if String.eqb cmd "exit" then mret tt
      else
        r ← SendCommand cmd;
        match r with
        | Some err =>
            log_Print ("failed to send command: " +:+ Error err)
        | None =>
            time_Sleep (100 * time_Millisecond)%Z;;
            InteractiveShell_loop stdin'
        end
  end.

(** [func (c *JupyterClient) InteractiveShell()] *)
Definition InteractiveShell (stdin : list string) : M unit :=
  time_Sleep (1 * time_Second)%Z;;
  fmt_Println (LF +:+ "Jupyter Terminal Shell");;
  fmt_Println "Type 'exit' or press Ctrl+C to quit";;
  fmt_Println "----------------------------------------";;
  InteractiveShell_loop stdin.

(** *** The receive loop *)

(** How one turn of a [for] loop ends. *)
Inductive Control : Type := Continue | Break | Return | Panicking.

(** One turn of the loop of [ReadMessages], given what
    [c.conn.ReadMessage()] returned: the console and log calls of the
    turn, and how the turn ends.  An index outside the slice panics. *)
Definition ReadMessages_iter (r : result bytes) : list Event * Control :=
  match r with
  | Err err =>
      (if websocket_IsUnexpectedCloseError err
            [websocket_CloseGoingAway; websocket_CloseAbnormalClosure]
       then [EvLog ("websocket error: " +:+ Error err)]
       else [],
       Break)
  | Ok message =>
      match json_Unmarshal L message with
      | Err err =>
          ([EvLog ("failed to parse message: " +:+ Error err)], Continue)
      | Ok msg =>
          if (length msg <? 2)%nat then ([], Continue)
          else
            match msg !! 0%nat with
            | None => ([], Panicking)
            | Some (VString msgType) =>
                if String.eqb msgType "stdout" then
                  match msg !! 1%nat with
                  | None => ([], Panicking)
                  | Some (VString output) => ([EvStdout output], Continue)
                  | Some _ => ([], Continue)
                  end
                else if String.eqb msgType "setup" then
                  ([EvLog "Terminal ready"], Continue)
                else if String.eqb msgType "disconnect" then
                  ([EvLog "Terminal disconnected"], Return)
                else ([], Continue)
            | Some _ => ([], Continue)
            end
      end
  end.

(** Where the receive loop stands: [Running] is blocked in
    [ReadMessage], [Terminated] has left the function. *)
Inductive RelayState : Type := Running | Terminated | Panicked.

(** The loop of [ReadMessages] on connection [k]; [script] lists what
    the successive calls of [ReadMessage] return, and a call beyond the
    script blocks for good. *)
Fixpoint ReadMessages_loop (k : Conn) (script : list (result bytes))
    (tr : Trace) : RelayState * Trace :=
  match script with
  | [] => (Running, tr ++ [EvRead k])
  | r :: script' =>
      let '(evs, ctl) := ReadMessages_iter r in
      let tr := tr ++ EvRead k :: evs in
      match ctl with
      | Continue => ReadMessages_loop k script' tr
      | Break | Return => (Terminated, tr)
      | Panicking => (Panicked, tr)
      end
  end.

(** [func (c *JupyterClient) ReadMessages()], run as its own activity:
    the calls it makes, and where it stands after them. *)
Definition ReadMessages (c : JupyterClient) (script : list (result bytes))
    : RelayState * Trace :=
  match conn c with
  | None => (Panicked, [])
  | Some k => ReadMessages_loop k script []
  end.

(** *** The controller *)

(** The flags and the trailing arguments, as [flag.Parse] leaves them. *)
Record Flags := mkFlags {
  serverURL : string;
  flag_token : string;
  termID : string;
  flag_Args : list string
}.

(** [main], lines 235-243: create or use an existing terminal. *)
Definition main_terminal (fl : Flags) : M unit :=
  if negb (String.eqb (termID fl) "") then
    modify (set_terminalID (termID fl));;
    c ← self;
    fmt_Print ("Using existing terminal: " +:+ terminalID c +:+ LF)
  else
    r ← CreateTerminal;
    match r with
    | Some err => log_Fatal ("Failed to create terminal: " +:+ Error err)
    | None => mret tt
    end.

(** [main], lines 254-266: single command mode or interactive mode. *)
Definition main_input (fl : Flags) (stdin : list string) : M unit :=
  if (0 <? length (flag_Args fl))%nat then
    let cmd := strings.Join (flag_Args fl) " " in
    r ← SendCommand cmd;
    match r with
    | Some err => log_Fatal ("Failed to send command: " +:+ Error err)
    | None => mret tt
    end;;
    time_Sleep (2 * time_Second)%Z
  else
    InteractiveShell stdin.

(** [main], lines 245-248: connect to the WebSocket. *)
Definition main_connect : M unit :=
  r ← Connect;
  match r with
  | Some err => log_Fatal ("Failed to connect: " +:+ Error err)
  | None => mret tt
  end.

(** [main], lines 235-248: the steps before the connection exists. *)
Definition main_startup (fl : Flags) : M unit :=
  main_terminal fl;;
  main_connect.

(** [main], lines 251-268: what runs under the deferred [Close]. *)
Definition main_session (fl : Flags) (stdin : list string) : M unit :=
  emit EvGoReadMessages;;
  main_input fl stdin;;
  fmt_Println (LF +:+ "Goodbye!").

(** [main] after [NewJupyterClient]; the receiver is [client]. *)
Definition main_client (fl : Flags) (stdin : list string) : M unit :=
  main_startup fl;;
  defer Close (main_session fl stdin).

(** [func main()]: how the process ends, the client and the calls made. *)
Definition main (fl : Flags) (stdin : list string)
    : Outcome unit * JupyterClient * Trace :=
  main_client fl stdin (NewJupyterClient (serverURL fl) (flag_token fl)) [].

End Client.


(** ** Observations on traces *)

Definition is_stdout (e : Event) : bool :=
  match e with EvStdout _ => true | _ => false end.
Definition is_http (e : Event) : bool :=
  match e with EvHttpDo _ => true | _ => false end.
Definition is_scan (e : Event) : bool :=
  match e with EvScan => true | _ => false end.
Definition is_write (e : Event) : bool :=
  match e with EvWrite _ _ _ => true | _ => false end.
Definition is_close (k : Conn) (e : Event) : bool :=
  match e with EvClose k' => Nat.eqb k k' | _ => false end.
Definition is_read (e : Event) : bool :=
  match e with EvRead _ => true | _ => false end.

(** The calls that provisioning, connecting and the session can make. *)
Definition provision_event (e : Event) : bool :=
  match e with
  | EvHttpDo _ | EvBodyClose | EvStdout _ | EvLog _ => true
  | _ => false
  end.
Definition connect_event (e : Event) : bool :=
  match e with
  | EvDial _ | EvStdout _ | EvLog _ => true
  | _ => false
  end.
Definition session_event (e : Event) : bool :=
  match e with
  | EvGoReadMessages | EvScan | EvWrite _ _ _ | EvClose _ | EvSleep _
  | EvStdout _ | EvLog _ => true
  | _ => false
  end.

(** The calls of the input loop, in either mode. *)
Definition input_event (e : Event) : bool :=
  match e with
  | EvScan | EvWrite _ _ _ | EvSleep _ | EvStdout _ | EvLog _ => true
  | _ => false
  end.
Definition is_log (e : Event) : bool :=
  match e with EvLog _ => true | _ => false end.
Definition is_dial (e : Event) : bool :=
  match e with EvDial _ => true | _ => false end.
Definition is_any_close (e : Event) : bool :=
  match e with EvClose _ => true | _ => false end.

(** The text written to the standard output. *)
Fixpoint stdout_of (tr : Trace) : string :=
  match tr with
  | [] => ""
  | EvStdout text :: tr' => text +:+ stdout_of tr'
  | _ :: tr' => stdout_of tr'
  end.

(** The number of calls of [ReadMessage]. *)
Definition receives (tr : Trace) : nat := length (filter is_read tr).

(** A computation stays within [P] and keeps [f]: it extends the trace by
    events that satisfy [P] only, and [f] of the client is after it what
    it was before. *)
Definition within {A B} (P : Event -> bool) (f : JupyterClient -> B)
    (m : M A) : Prop :=
  forall c tr o c' tr',
    m c tr = (o, c', tr') ->
    f c' = f c /\ exists ext, tr' = tr ++ ext /\ forallb P ext = true.

(** ** A scripted server *)

(** A library and an environment to run the client on: the wire text of
    the frames of the terminal protocol with what [encoding/json] makes of
    them, the two endpoints of the README, and a server whose answers are
    fixed in advance. *)
Module Scripted.

Definition DQ : string := String (Ascii.ascii_of_nat 34) EmptyString.
Definition BS : string := String (Ascii.ascii_of_nat 92) EmptyString.

(** The JSON text of a string of letters, digits, spaces, quotes,
    backslashes and line feeds. *)
Fixpoint escape (s : string) : string :=
  match s with
  | EmptyString => EmptyString
  | String a s' =>
      (if String.eqb (String a EmptyString) LF then BS +:+ "n"
       else if String.eqb (String a EmptyString) DQ then BS +:+ DQ
       else if String.eqb (String a EmptyString) BS then BS +:+ BS
       else String a EmptyString) +:+ escape s'
  end.

Definition quote (s : string) : string := DQ +:+ escape s +:+ DQ.

(** The JSON text of an array of strings. *)
Definition wire (msg : list string) : bytes :=
  "[" +:+ String.concat "," (map quote msg) +:+ "]".

Fixpoint texts (msg : Message) : option (list string) :=
  match msg with
  | [] => Some []
  | VString s :: msg' => cons s <$> texts msg'
  | _ :: _ => None
  end.

Definition Marshal (msg : Message) : result bytes :=
  match texts msg with
  | Some l => Ok (wire l)
  | None => Err (fmt_Errorf "json: unsupported value")
  end.

(** The IEEE 754 bits of the number 1. *)
Definition one : Value := VFloat64 4607182418800017408%Z.

(** Inbound frames and the arrays they decode to. *)
Definition inbound : list (bytes * Message) :=
  [ (wire ["setup"], [VString "setup"]);
    ("[" +:+ quote "setup" +:+ ",{}]", [VString "setup"; VObject ∅]);
    (wire ["stdout"; "a" +:+ LF], [VString "stdout"; VString ("a" +:+ LF)]);
    (wire ["stdout"; "b" +:+ LF], [VString "stdout"; VString ("b" +:+ LF)]);
    (wire ["stdout"; "c" +:+ LF], [VString "stdout"; VString ("c" +:+ LF)]);
    (wire ["disconnect"], [VString "disconnect"]);
    ("[" +:+ quote "disconnect" +:+ ",1]", [VString "disconnect"; one]);
    ("[]", []);
    ("null", []) ].

Definition Unmarshal (data : bytes) : result Message :=
  match list_find (fun p => bool_decide (fst p = data)) inbound with
  | Some (_, (_, msg)) => Ok msg
  | None => Err (fmt_Errorf "invalid character")
  end.

(** Response bodies and the objects they decode to. *)
Definition bodies : list (bytes * gmap string Value) :=
  [ ("{" +:+ quote "name" +:+ ":" +:+ quote "1" +:+ "}",
     {[ "name" := VString "1" ]});
    ("{" +:+ quote "name" +:+ ":1}", {[ "name" := one ]});
    ("{}", ∅) ].

Definition Decode (data : bytes) : result (gmap string Value) :=
  match list_find (fun p => bool_decide (fst p = data)) bodies with
  | Some (_, (_, obj)) => Ok obj
  | None => Err (fmt_Errorf "invalid character")
  end.

(** The endpoints of the README. *)
Definition endpoints : list (string * URL) :=
  [ ("http://localhost:8888",
     mkURL "http" "" None "localhost:8888" "" "" false false "" "" "");
    ("https://jupyter.company.com",
     mkURL "https" "" None "jupyter.company.com" "" "" false false "" "" "")
  ].

Definition Parse (rawURL : string) : result URL :=
  match list_find (fun p => bool_decide (fst p = rawURL)) endpoints with
  | Some (_, (_, u)) => Ok u
  | None => Err (fmt_Errorf "parse error")
  end.

(** Queries of at most a token. *)
Definition ParseQuery (query : string) : Values := ∅.

Definition Encode (v : Values) : string :=
  match v !! "token" with
  | Some [t] => "token=" +:+ t
  | _ => ""
  end.

Definition URLString (u : URL) : string :=
  Scheme u +:+ "://" +:+ Host u +:+ Path u
  +:+ (if String.eqb (RawQuery u) "" then "" else "?" +:+ RawQuery u).

Definition lib : Lib :=
  {| http_NewRequest := fun method url => Ok (mkRequest method url ∅);
     json_Decode := Decode;
     json_Unmarshal := Unmarshal;
     json_Marshal := Marshal;
     url_Parse := Parse;
     url_ParseQuery := ParseQuery;
     Values_Encode := Encode;
     URL_String := URLString |}.

Definition closed_error : error :=
  fmt_Errorf "use of closed network connection".

(** A server that answers the provisioning call with [resp] and accepts
    the dial with connection [0]; the writes numbered in [failing] fail,
    and so does every call on a connection that was closed. *)
Definition server (resp : result Response) (failing : list nat) : Env :=
  {| client_Do := fun _ _ => resp;
     dialer_Dial := fun _ _ => Ok 0%nat;
     conn_WriteMessage := fun tr k _ _ =>
       if existsb (is_close k) tr then Some closed_error
       else if existsb (Nat.eqb (length (filter is_write tr))) failing
            then Some (fmt_Errorf "broken pipe")
            else None;
     conn_Close := fun tr k =>
       if existsb (is_close k) tr then Some closed_error else None |}.

Definition created : result Response :=
  Ok (mkResponse "201 Created" 201
        ("{" +:+ quote "name" +:+ ":" +:+ quote "1" +:+ "}")).

End Scripted.

(** More of the same: frames of kinds the client does not know, and a
    server on which every call succeeds. *)
Module Replay.

(** The IEEE 754 bits of the number 2. *)
Definition two : Value := VFloat64 4611686018427387904%Z.

Definition inbound : list (bytes * Message) :=
  Scripted.inbound ++
  [ (Scripted.wire ["ping"; "x"], [VString "ping"; VString "x"]);
    ("[1,2]", [Scripted.one; two]);
    ("[" +:+ Scripted.quote "stdout" +:+ ",1]",
     [VString "stdout"; Scripted.one]);
    (Scripted.wire ["stdout"; "a"; "b"],
     [VString "stdout"; VString "a"; VString "b"]) ].

Definition Unmarshal (data : bytes) : result Message :=
  match list_find (fun p => bool_decide (fst p = data)) inbound with
  | Some (_, (_, msg)) => Ok msg
  | None => Err (fmt_Errorf "invalid character")
  end.

Definition lib : Lib :=
  {| http_NewRequest := http_NewRequest Scripted.lib;
     json_Decode := json_Decode Scripted.lib;
     json_Unmarshal := Unmarshal;
     json_Marshal := json_Marshal Scripted.lib;
     url_Parse := url_Parse Scripted.lib;
     url_ParseQuery := url_ParseQuery Scripted.lib;
     Values_Encode := Values_Encode Scripted.lib;
     URL_String := URL_String Scripted.lib |}.


(** A server that refuses the dial. *)
Definition unreachable (resp : result Response) : Env :=
  {| client_Do := fun _ _ => resp;
     dialer_Dial := fun _ _ => Err (fmt_Errorf "connection refused");
     conn_WriteMessage := fun _ _ _ _ => None;
     conn_Close := fun _ _ => None |}.

End Replay.

(** * Properties *)

(** ** Strings *)

Section StringFacts.

Implicit Types s p q suffix : string.

Lemma app_cons a s q : String a s +:+ q = String a (s +:+ q).
Proof. reflexivity. Qed.

Lemma length_app p q :
  String.length (p +:+ q) = (String.length p + String.length q)%nat.
Proof.
  induction p as [|a p IH]; [reflexivity|].
  rewrite app_cons. cbn [String.length]. now rewrite IH.
Qed.

Lemma substring_all q : String.substring 0 (String.length q) q = q.
Proof.
  induction q as [|a q IH]; [reflexivity|].
  cbn [String.length String.substring]. now rewrite IH.
Qed.

Lemma substring_skip p q :
  String.substring (String.length p) (String.length q) (p +:+ q) = q.
Proof.
  induction p as [|a p IH]; [apply substring_all|].
  rewrite app_cons. cbn [String.length String.substring]. exact IH.
Qed.

Lemma substring_split s : forall n m,
  (n + m)%nat = String.length s ->
  s = String.substring 0 n s +:+ String.substring n m s.
Proof.
  induction s as [|a s IH]; intros n m H.
  - destruct n, m; try discriminate; reflexivity.
  - destruct n as [|n].
    + cbn [plus] in H. subst m. rewrite substring_all. reflexivity.
    + cbn [String.substring]. rewrite app_cons. f_equal.
      apply IH. cbn [String.length plus] in H. congruence.
Qed.

(** [strings.HasSuffix] holds exactly of the strings that end in the
    suffix. *)
Lemma HasSuffix_spec s suffix :
  strings.HasSuffix s suffix = true <-> exists p, s = p +:+ suffix.
Proof.
  unfold strings.HasSuffix. rewrite andb_true_iff, Nat.leb_le, String.eqb_eq.
  split.
  - intros [Hle Hsub].
    exists (String.substring 0 (String.length s - String.length suffix) s).
    pose proof (substring_split s
      (String.length s - String.length suffix) (String.length suffix)) as Hs.
    rewrite Hsub in Hs. apply Hs. lia.
  - intros [p ->]. rewrite length_app. split; [lia|].
    replace (String.length p + String.length suffix - String.length suffix)%nat
      with (String.length p) by lia.
    apply substring_skip.
Qed.

Lemma HasSuffix_false s suffix :
  strings.HasSuffix s suffix = false <-> ~ exists p, s = p +:+ suffix.
Proof.
  rewrite <- HasSuffix_spec. destruct (strings.HasSuffix s suffix); split;
    congruence.
Qed.

End StringFacts.

(** ** Running computations *)

Ltac run :=
  cbv beta iota delta
    [mbind M_bind bind mret M_ret ret self modify emit defer os_Exit panic
     fmt_Print fmt_Println log_Print log_Fatal time_Sleep
     call_Do call_Dial call_WriteMessage call_Close].

Section Sending.

Context (L : Lib) (E : Env).

(** What [SendCommand] does with the text it puts on the wire. *)
Lemma SendCommand_unfold cmd c tr :
  SendCommand L E cmd c tr =
  let cmd' := if strings.HasSuffix cmd LF then cmd else cmd +:+ LF in
  match json_Marshal L [VString "stdin"; VString cmd'] with
  | Err err => (Ret (Some err), c, tr)
  | Ok data =>
      match conn c with
      | None =>
          (Panic "invalid memory address or nil pointer dereference", c, tr)
      | Some k =>
          (Ret (conn_WriteMessage E tr k websocket_TextMessage data), c,
           tr ++ [EvWrite k websocket_TextMessage data])
      end
  end.
Proof.
  unfold SendCommand. destruct (strings.HasSuffix cmd LF); cbn [negb];
    cbv zeta; destruct (json_Marshal L _); run; try reflexivity;
    destruct (conn c); reflexivity.
Qed.

(** C4. [SendCommand cmd] hands the connection exactly one frame, the JSON
    encoding of the array [["stdin", cmd']], where [cmd'] is [cmd] when
    [cmd] ends in a line feed and [cmd] followed by a line feed otherwise
    (the encoder's error, if any, is returned and nothing is written). *)
Theorem SendCommand_transmits cmd c tr k :
  conn c = Some k ->
  exists cmd',
    ((exists p, cmd = p +:+ LF) -> cmd' = cmd) /\
    (~ (exists p, cmd = p +:+ LF) -> cmd' = cmd +:+ LF) /\
    SendCommand L E cmd c tr =
    match json_Marshal L [VString "stdin"; VString cmd'] with
    | Ok data =>
        (Ret (conn_WriteMessage E tr k websocket_TextMessage data), c,
         tr ++ [EvWrite k websocket_TextMessage data])
    | Err err => (Ret (Some err), c, tr)
    end.
Proof.
  intros Hk. rewrite SendCommand_unfold. cbv zeta.
  destruct (strings.HasSuffix cmd LF) eqn:Hs.
  - exists cmd. split; [reflexivity|]. split.
    + intros Hn. apply HasSuffix_spec in Hs. contradiction.
    + rewrite Hk. destruct (json_Marshal L _); reflexivity.
  - exists (cmd +:+ LF). split; [|split].
    + intros Hp. apply HasSuffix_spec in Hp. congruence.
    + reflexivity.
    + rewrite Hk. destruct (json_Marshal L _); reflexivity.
Qed.

End Sending.

Lemma SendCommand_transmits_witness :
  exists cmd',
    ((exists p, "ls" = p +:+ LF) -> cmd' = "ls") /\
    (~ (exists p, "ls" = p +:+ LF) -> cmd' = "ls" +:+ LF) /\
    SendCommand Scripted.lib (Scripted.server Scripted.created []) "ls"
      (mkClient "http://localhost:8888" "" "1" (Some 0%nat)) [] =
    match json_Marshal Scripted.lib [VString "stdin"; VString cmd'] with
    | Ok data =>
        (Ret (conn_WriteMessage (Scripted.server Scripted.created []) []
                0%nat websocket_TextMessage data),
         mkClient "http://localhost:8888" "" "1" (Some 0%nat),
         [] ++ [EvWrite 0%nat websocket_TextMessage data])
    | Err err =>
        (Ret (Some err), mkClient "http://localhost:8888" "" "1" (Some 0%nat),
         [])
    end.
Proof.
  apply (SendCommand_transmits Scripted.lib
           (Scripted.server Scripted.created []) "ls"
           (mkClient "http://localhost:8888" "" "1" (Some 0%nat)) [] 0%nat).
  reflexivity.
Defined.

(** [send("ls")] puts [["stdin","ls\n"]] on the wire, and so does
    [send("ls\n")]: the line feed is not doubled. *)
Example SendCommand_ls :
  let c := mkClient "http://localhost:8888" "" "1" (Some 0%nat) in
  let E := Scripted.server Scripted.created [] in
  let frame := Scripted.wire ["stdin"; "ls" +:+ LF] in
  SendCommand Scripted.lib E "ls" c [] =
    (Ret None, c, [EvWrite 0%nat websocket_TextMessage frame]) /\
  SendCommand Scripted.lib E ("ls" +:+ LF) c [] =
    (Ret None, c, [EvWrite 0%nat websocket_TextMessage frame]).
Proof. split; vm_compute; reflexivity. Qed.

(** ** Teardown *)

Section Teardown.

Context (L : Lib) (E : Env).

Lemma Close_nil c tr : conn c = None -> Close L E c tr = (Ret None, c, tr).
Proof. intros H. unfold Close. run. rewrite H. reflexivity. Qed.

(** On a client with a connection, [Close] sends the exit command, sleeps
    and closes, whatever the sending returned, and leaves the client as it
    was. *)
Lemma Close_conn c tr k data :
  conn c = Some k ->
  json_Marshal L [VString "stdin"; VString ("exit" +:+ LF)] = Ok data ->
  Close L E c tr =
    (Ret (conn_Close E (tr ++ [EvWrite k websocket_TextMessage data]
                           ++ [EvSleep (500 * time_Millisecond)]) k),
     c,
     tr ++ [EvWrite k websocket_TextMessage data;
            EvSleep (500 * time_Millisecond); EvClose k]).
Proof.
  intros Hk Hm. unfold Close. run. rewrite Hk.
  rewrite SendCommand_unfold. cbv zeta.
  change (strings.HasSuffix "exit" LF) with false. cbv iota.
  rewrite Hm, Hk. rewrite <- !app_assoc. reflexivity.
Qed.

(** [Close] never panics and never ends the process. *)
Lemma Close_returns c tr : exists r tr', Close L E c tr = (Ret r, c, tr').
Proof.
  unfold Close. run. destruct (conn c) as [k|] eqn:Hk; [|eauto].
  rewrite SendCommand_unfold. cbv zeta.
  destruct (json_Marshal L _); rewrite ?Hk; eauto.
Qed.

(** C2, as the code has it. [Close] on a client without a connection does
    nothing and returns no error.  [Close] on a client with a connection
    returns without a panic and leaves the connection field set, so a
    second [Close] is no no-op: it hands the exit command to the
    connection once more, sleeps and closes the connection once more. *)
Theorem Close_twice c tr :
  (conn c = None -> Close L E c tr = (Ret None, c, tr)) /\
  (forall k data,
     conn c = Some k ->
     json_Marshal L [VString "stdin"; VString ("exit" +:+ LF)] = Ok data ->
     let teardown := [EvWrite k websocket_TextMessage data;
                      EvSleep (500 * time_Millisecond); EvClose k] in
     exists r1 r2,
       Close L E c tr = (Ret r1, c, tr ++ teardown) /\
       Close L E c (tr ++ teardown) =
         (Ret r2, c, (tr ++ teardown) ++ teardown)).
Proof.
  split; [apply Close_nil|]. intros k data Hk Hm teardown.
  do 2 eexists. split; apply Close_conn; assumption.
Qed.

End Teardown.

Lemma Close_twice_witness :
  let c := mkClient "http://localhost:8888" "" "1" (Some 0%nat) in
  let E := Scripted.server Scripted.created [] in
  let data := Scripted.wire ["stdin"; "exit" +:+ LF] in
  let teardown := [EvWrite 0%nat websocket_TextMessage data;
                   EvSleep (500 * time_Millisecond); EvClose 0%nat] in
  Close Scripted.lib E (NewJupyterClient "http://localhost:8888" "") [] =
    (Ret None, NewJupyterClient "http://localhost:8888" "", []) /\
  exists r1 r2,
    Close Scripted.lib E c [] = (Ret r1, c, [] ++ teardown) /\
    Close Scripted.lib E c ([] ++ teardown) =
      (Ret r2, c, ([] ++ teardown) ++ teardown).
Proof.
  intros c E data teardown. split.
  - apply (proj1 (Close_twice Scripted.lib E
                    (NewJupyterClient "http://localhost:8888" "") [])).
    reflexivity.
  - apply (proj2 (Close_twice Scripted.lib E c []) 0%nat data);
      vm_compute; reflexivity.
Defined.

(** C2, as the claim has it, fails: on the scripted server the second
    [Close] hands the exit command to the connection again (the closed
    connection refuses it) and returns the error of closing twice. *)
Lemma Close_twice_resends_exit :
  let c := mkClient "http://localhost:8888" "" "1" (Some 0%nat) in
  let E := Scripted.server Scripted.created [] in
  let exit := EvWrite 0%nat 1 (Scripted.wire ["stdin"; "exit" +:+ LF]) in
  let first := [exit; EvSleep 500000000; EvClose 0%nat] in
  Close Scripted.lib E c [] = (Ret None, c, first) /\
  Close Scripted.lib E c first =
    (Ret (Some Scripted.closed_error), c,
     first ++ [exit; EvSleep 500000000; EvClose 0%nat]).
Proof. split; vm_compute; reflexivity. Qed.

(** ** Provisioning *)

Section Provisioning.

Context (L : Lib) (E : Env).

(** The request that [CreateTerminal] builds from [http.NewRequest]'s. *)
Lemma CreateTerminal_unfold c tr :
  CreateTerminal L E c tr =
  match http_NewRequest L "POST" (baseURL c +:+ "/api/terminals") with
  | Err err => (Ret (Some err), c, tr)
  | Ok req0 =>
      let req :=
        if negb (String.eqb (token c) "")
        then Header_Set req0 "Authorization" ("token " +:+ token c)
        else req0 in
      match client_Do E tr req with
      | Err err => (Ret (Some err), c, tr ++ [EvHttpDo req])
      | Ok resp =>
          if negb (StatusCode resp =? http_StatusOK)%Z
             && negb (StatusCode resp =? http_StatusCreated)%Z
          then
            (Ret (Some (fmt_Errorf ("failed to create terminal: "
                                    +:+ Status resp +:+ " - " +:+ Body resp))),
             c, tr ++ [EvHttpDo req; EvBodyClose])
          else
            match json_Decode L (Body resp) with
            | Err err =>
                (Ret (Some err), c, tr ++ [EvHttpDo req; EvBodyClose])
            | Ok result =>
                match result !! "name" with
                | Some (VString name) =>
                    (Ret None, set_terminalID name c,
                     tr ++ [EvHttpDo req;
                            EvStdout ("Created terminal: " +:+ name +:+ LF);
                            EvBodyClose])
                | _ =>
                    (Ret (Some (fmt_Errorf
                                  "terminal ID not found in response")),
                     c, tr ++ [EvHttpDo req; EvBodyClose])
                end
            end
      end
  end.
Proof.
  unfold CreateTerminal. run.
  destruct (http_NewRequest L _ _) as [req0|]; [|reflexivity].
  cbv zeta. destruct (client_Do E tr _) as [resp|]; [|reflexivity].
  destruct (negb _ && negb _).
  { rewrite <- app_assoc. reflexivity. }
  destruct (json_Decode L _) as [result|];
    [|rewrite <- app_assoc; reflexivity].
  destruct (result !! "name") as [[| | |name| |]|];
    rewrite <- ?app_assoc; reflexivity.
Qed.

(** [CreateTerminal] never panics and never ends the process. *)
Lemma CreateTerminal_returns c tr :
  exists r c' tr', CreateTerminal L E c tr = (Ret r, c', tr').
Proof.
  rewrite CreateTerminal_unfold.
  destruct (http_NewRequest L _ _) as [req0|]; [|eauto].
  cbv zeta. destruct (client_Do E tr _) as [resp|]; [|eauto].
  destruct (negb _ && negb _); [eauto|].
  destruct (json_Decode L _) as [result|]; [|eauto].
  destruct (result !! "name") as [[| | |name| |]|]; eauto.
Qed.

(** C6. Given the response to the provisioning call: a status other than
    200 and 201 yields the error that carries the status line and the
    body, and the client is left as it was; with status 200 or 201, a body
    whose [name] field is a string sets the session identifier to it and
    returns no error, and a body without a string-valued [name] (or one
    that does not decode) yields an error and leaves the client as it
    was. *)
Theorem CreateTerminal_status c tr req0 req resp :
  http_NewRequest L "POST" (baseURL c +:+ "/api/terminals") = Ok req0 ->
  req = (if negb (String.eqb (token c) "")
         then Header_Set req0 "Authorization" ("token " +:+ token c)
         else req0) ->
  client_Do E tr req = Ok resp ->
  (StatusCode resp <> 200%Z /\ StatusCode resp <> 201%Z ->
   CreateTerminal L E c tr =
     (Ret (Some (fmt_Errorf ("failed to create terminal: "
                             +:+ Status resp +:+ " - " +:+ Body resp))),
      c, tr ++ [EvHttpDo req; EvBodyClose])) /\
  (StatusCode resp = 200%Z \/ StatusCode resp = 201%Z ->
   (forall result name,
      json_Decode L (Body resp) = Ok result ->
      result !! "name" = Some (VString name) ->
      CreateTerminal L E c tr =
        (Ret None, set_terminalID name c,
         tr ++ [EvHttpDo req;
                EvStdout ("Created terminal: " +:+ name +:+ LF);
                EvBodyClose])) /\
   (forall result,
      json_Decode L (Body resp) = Ok result ->
      (forall name, result !! "name" <> Some (VString name)) ->
      CreateTerminal L E c tr =
        (Ret (Some (fmt_Errorf "terminal ID not found in response")),
         c, tr ++ [EvHttpDo req; EvBodyClose])) /\
   (forall err,
      json_Decode L (Body resp) = Err err ->
      CreateTerminal L E c tr =
        (Ret (Some err), c, tr ++ [EvHttpDo req; EvBodyClose]))).
Proof.
  intros Hreq Hr Hdo. rewrite CreateTerminal_unfold, Hreq. cbv zeta.
  rewrite <- Hr, Hdo. unfold http_StatusOK, http_StatusCreated.
  split.
  - intros [H1 H2]. apply Z.eqb_neq in H1, H2. rewrite H1, H2. reflexivity.
  - intros Hok.
    assert ((negb (StatusCode resp =? 200)%Z
             && negb (StatusCode resp =? 201)%Z) = false) as ->.
    { destruct Hok as [-> | ->]; reflexivity. }
    split; [|split].
    + intros result name -> ->. reflexivity.
    + intros result -> Hn.
      destruct (result !! "name") as [[| | |name| |]|]; try reflexivity.
      now destruct (Hn name).
    + intros err ->. reflexivity.
Qed.

(** C10. A fresh client has an empty session identifier and no
    connection; and when [CreateTerminal] returns no error, the client
    differs from the one it was called on in the session identifier
    only. *)
Theorem CreateTerminal_frame :
  (forall url tok,
     terminalID (NewJupyterClient url tok) = "" /\
     conn (NewJupyterClient url tok) = None) /\
  (forall c tr c' tr',
     CreateTerminal L E c tr = (Ret None, c', tr') ->
     baseURL c' = baseURL c /\ token c' = token c /\ conn c' = conn c /\
     c' = set_terminalID (terminalID c') c).
Proof.
  split; [intros; split; reflexivity|].
  intros c tr c' tr'. rewrite CreateTerminal_unfold.
  destruct (http_NewRequest L _ _) as [req0|]; [|discriminate].
  cbv zeta. destruct (client_Do E tr _) as [resp|]; [|discriminate].
  destruct (negb _ && negb _); [discriminate|].
  destruct (json_Decode L _) as [result|]; [|discriminate].
  destruct (result !! "name") as [[| | |name| |]|]; try discriminate.
  intros H. inversion H; subst. auto.
Qed.

End Provisioning.

Lemma CreateTerminal_status_witness :
  let c := NewJupyterClient "http://localhost:8888/" "abc" in
  let req := mkRequest "POST" "http://localhost:8888/api/terminals"
               {[ "Authorization" := ["token abc"] ]} in
  let failed := mkResponse "500 Internal Server Error" 500 "boom" in
  CreateTerminal Scripted.lib (Scripted.server Scripted.created []) c [] =
    (Ret None, set_terminalID "1" c,
     [EvHttpDo req; EvStdout ("Created terminal: 1" +:+ LF); EvBodyClose]) /\
  CreateTerminal Scripted.lib (Scripted.server (Ok failed) []) c [] =
    (Ret (Some (fmt_Errorf
                  "failed to create terminal: 500 Internal Server Error - boom")),
     c, [EvHttpDo req; EvBodyClose]).
Proof.
  intros c req failed. split.
  - refine (proj1 (proj2 (CreateTerminal_status Scripted.lib
              (Scripted.server Scripted.created []) c []
              (mkRequest "POST" "http://localhost:8888/api/terminals" ∅)
              req (mkResponse "201 Created" 201 _) _ _ _) _)
              {[ "name" := VString "1" ]} "1" _ _);
      try (vm_compute; reflexivity).
    right. reflexivity.
  - refine (proj1 (CreateTerminal_status Scripted.lib
              (Scripted.server (Ok failed) []) c []
              (mkRequest "POST" "http://localhost:8888/api/terminals" ∅)
              req failed _ _ _) _);
      try (vm_compute; reflexivity).
    split; discriminate.
Defined.

Lemma CreateTerminal_frame_witness :
  let c := NewJupyterClient "http://localhost:8888/" "abc" in
  let c' := set_terminalID "1" c in
  baseURL c' = baseURL c /\ token c' = token c /\ conn c' = conn c /\
  c' = set_terminalID (terminalID c') c.
Proof.
  intros c c'.
  refine (proj2 (CreateTerminal_frame Scripted.lib
            (Scripted.server Scripted.created [])) c [] c' _ _).
  vm_compute. reflexivity.
Defined.

(** ** The connection target *)

Section Connecting.

Context (L : Lib) (E : Env).

(** C7. When the base URL parses as [u], [Connect] dials the text of a
    URL [u'] that is [u] with scheme [wss] if [u]'s is [https] and [ws]
    otherwise, with path [/terminals/websocket/] followed by the session
    identifier, and with the query of [u] in which [token] is set to the
    credential if the credential is not empty, the query of [u] untouched
    if it is empty; [Connect] stores the connection that the dial
    returns. *)
Theorem Connect_target c tr u :
  url_Parse L (baseURL c) = Ok u ->
  exists u',
    (Scheme u = "https" -> Scheme u' = "wss") /\
    (Scheme u <> "https" -> Scheme u' = "ws") /\
    Path u' = "/terminals/websocket/" +:+ terminalID c /\
    (token c <> "" ->
     RawQuery u' =
       Values_Encode L (<["token" := [token c]]> (URL_Query L u))) /\
    (token c = "" -> RawQuery u' = RawQuery u) /\
    (Opaque u', User u', Host u', RawPath u', OmitHost u', ForceQuery u',
     Fragment u', RawFragment u') =
    (Opaque u, User u, Host u, RawPath u, OmitHost u, ForceQuery u,
     Fragment u, RawFragment u) /\
    let target := URL_String L u' in
    let tr' := tr ++ [EvStdout ("Connecting to: " +:+ target +:+ LF)] in
    Connect L E c tr =
      match dialer_Dial E tr' target with
      | Ok k => (Ret None, set_conn (Some k) c, tr' ++ [EvDial target])
      | Err err =>
          (Ret (Some (fmt_Errorf ("websocket dial error: " +:+ Error err))),
           c, tr' ++ [EvDial target])
      end.
Proof.
  intros Hu. unfold Connect. run. rewrite Hu. cbv zeta.
  set (u1 := if (Scheme u =? "https")%string
             then set_Scheme "wss" u else set_Scheme "ws" u).
  set (u2 := set_Path ("/terminals/websocket/" +:+ terminalID c) u1).
  set (u3 := if negb (token c =? "")%string
             then set_RawQuery
                    (Values_Encode L
                       (Values_Set (URL_Query L u2) "token" (token c))) u2
             else u2).
  exists u3. subst u3 u2 u1.
  split; [|split; [|split; [|split; [|split; [|split]]]]].
  - intros ->. destruct (negb _); reflexivity.
  - intros Hs. apply String.eqb_neq in Hs. rewrite Hs.
    destruct (negb _); reflexivity.
  - destruct (negb _); reflexivity.
  - intros Ht. apply String.eqb_neq in Ht. rewrite Ht. cbn [negb].
    destruct (Scheme u =? "https")%string; reflexivity.
  - intros ->. cbn [negb String.eqb].
    destruct (Scheme u =? "https")%string; reflexivity.
  - destruct (negb _), (Scheme u =? "https")%string; reflexivity.
  - cbv zeta. destruct (dialer_Dial E _ _); reflexivity.
Qed.

(** [Connect] never panics and never ends the process. *)
Lemma Connect_returns c tr :
  exists r c' tr', Connect L E c tr = (Ret r, c', tr').
Proof.
  unfold Connect. run. destruct (url_Parse L _) as [u|]; [|eauto].
  cbv zeta. destruct (dialer_Dial E _ _); eauto.
Qed.

(** [Connect] leaves the session identifier alone, and leaves a
    connection in the client when it returns no error. *)
Lemma Connect_ok c tr c' tr' :
  Connect L E c tr = (Ret None, c', tr') ->
  exists k, c' = set_conn (Some k) c.
Proof.
  unfold Connect. run. destruct (url_Parse L _) as [u|]; [|discriminate].
  cbv zeta. destruct (dialer_Dial E _ _) as [k|]; [|discriminate].
  intros H. inversion H. eauto.
Qed.

End Connecting.

Lemma Connect_target_witness :
  let c := mkClient "https://jupyter.company.com" "abc" "7" None in
  let u := mkURL "https" "" None "jupyter.company.com" "" "" false false
             "" "" "" in
  let L := Scripted.lib in
  let E := Scripted.server Scripted.created [] in
  exists u',
    (Scheme u = "https" -> Scheme u' = "wss") /\
    (Scheme u <> "https" -> Scheme u' = "ws") /\
    Path u' = "/terminals/websocket/" +:+ terminalID c /\
    (token c <> "" ->
     RawQuery u' =
       Values_Encode L (<["token" := [token c]]> (URL_Query L u))) /\
    (token c = "" -> RawQuery u' = RawQuery u) /\
    (Opaque u', User u', Host u', RawPath u', OmitHost u', ForceQuery u',
     Fragment u', RawFragment u') =
    (Opaque u, User u, Host u, RawPath u, OmitHost u, ForceQuery u,
     Fragment u, RawFragment u) /\
    let target := URL_String L u' in
    let tr' := [] ++ [EvStdout ("Connecting to: " +:+ target +:+ LF)] in
    Connect L E c [] =
      match dialer_Dial E tr' target with
      | Ok k => (Ret None, set_conn (Some k) c, tr' ++ [EvDial target])
      | Err err =>
          (Ret (Some (fmt_Errorf ("websocket dial error: " +:+ Error err))),
           c, tr' ++ [EvDial target])
      end.
Proof.
  intros c u L E. apply (Connect_target L E c [] u). reflexivity.
Defined.

(** The targets of the two endpoints of the README. *)
Example Connect_targets :
  let E := Scripted.server Scripted.created [] in
  Connect Scripted.lib E
    (mkClient "https://jupyter.company.com" "abc" "7" None) [] =
    (Ret None, mkClient "https://jupyter.company.com" "abc" "7" (Some 0%nat),
     [EvStdout ("Connecting to: "
                +:+ "wss://jupyter.company.com/terminals/websocket/7?token=abc"
                +:+ LF);
      EvDial "wss://jupyter.company.com/terminals/websocket/7?token=abc"]) /\
  Connect Scripted.lib E (mkClient "http://localhost:8888" "" "1" None) [] =
    (Ret None, mkClient "http://localhost:8888" "" "1" (Some 0%nat),
     [EvStdout ("Connecting to: "
                +:+ "ws://localhost:8888/terminals/websocket/1" +:+ LF);
      EvDial "ws://localhost:8888/terminals/websocket/1"]).
Proof. split; vm_compute; reflexivity. Qed.

(** ** The receive loop *)

Section Relay.

Context (L : Lib).

Lemma ReadMessages_loop_cons k r script tr :
  ReadMessages_loop L k (r :: script) tr =
  match ReadMessages_iter L r with
  | (evs, Continue) => ReadMessages_loop L k script (tr ++ EvRead k :: evs)
  | (evs, Panicking) => (Panicked, tr ++ EvRead k :: evs)
  | (evs, _) => (Terminated, tr ++ EvRead k :: evs)
  end.
Proof.
  cbn [ReadMessages_loop]. destruct (ReadMessages_iter L r) as [evs []];
    reflexivity.
Qed.

(** The loop only adds to the trace it is given. *)
Lemma ReadMessages_loop_app k script : forall tr,
  ReadMessages_loop L k script tr =
  (fst (ReadMessages_loop L k script []),
   tr ++ snd (ReadMessages_loop L k script [])).
Proof.
  induction script as [|r script IH]; intros tr; [reflexivity|].
  rewrite !ReadMessages_loop_cons.
  destruct (ReadMessages_iter L r) as [evs []]; cbn [fst snd app];
    try reflexivity.
  rewrite IH, (IH (EvRead k :: evs)). cbn [fst snd].
  rewrite <- app_assoc. reflexivity.
Qed.

(** A turn of the loop never indexes outside the message. *)
Lemma ReadMessages_iter_no_panic r :
  snd (ReadMessages_iter L r) <> Panicking.
Proof.
  unfold ReadMessages_iter. destruct r as [message|err]; [|discriminate].
  destruct (json_Unmarshal L message) as [msg|]; [|discriminate].
  destruct msg as [|m0 [|m1 msg]]; try discriminate.
  cbn. destruct m0; try discriminate.
  repeat match goal with
         | |- context [if ?b then _ else _] => destruct b
         end; try discriminate.
  destruct m1; discriminate.
Qed.

(** C5. A frame that does not decode, and a frame that decodes to fewer
    than two elements, write nothing to the output and do not end the
    loop: the turn logs the decoding error or does nothing at all, and
    the loop goes on to the next receive. *)
Theorem ReadMessages_drops message k script tr :
  (forall err,
     json_Unmarshal L message = Err err ->
     ReadMessages_iter L (Ok message) =
       ([EvLog ("failed to parse message: " +:+ Error err)], Continue) /\
     ReadMessages_loop L k (Ok message :: script) tr =
       ReadMessages_loop L k script
         (tr ++ [EvRead k;
                 EvLog ("failed to parse message: " +:+ Error err)])) /\
  (forall msg,
     json_Unmarshal L message = Ok msg ->
     (length msg < 2)%nat ->
     ReadMessages_iter L (Ok message) = ([], Continue) /\
     ReadMessages_loop L k (Ok message :: script) tr =
       ReadMessages_loop L k script (tr ++ [EvRead k])).
Proof.
  split.
  - intros err He. rewrite ReadMessages_loop_cons.
    unfold ReadMessages_iter. rewrite He. split; reflexivity.
  - intros msg Hm Hlen. rewrite ReadMessages_loop_cons.
    unfold ReadMessages_iter. rewrite Hm.
    apply Nat.ltb_lt in Hlen. rewrite Hlen. split; reflexivity.
Qed.

(** C3, as the code has it. On the frames [["setup"]], [["stdout","a\n"]],
    [["stdout","b\n"]] and a disconnect frame, the loop writes exactly
    [a\nb\n].  A disconnect frame of one element is dropped by the
    length guard like the one-element setup frame: the loop goes on with
    a fifth receive.  A disconnect frame with a second element ends the
    loop after the fourth receive, and what the connection holds after it
    is not received. *)
Theorem ReadMessages_script c k f1 f2 f3 f4 f4' x rest :
  conn c = Some k ->
  json_Unmarshal L f1 = Ok [VString "setup"] ->
  json_Unmarshal L f2 = Ok [VString "stdout"; VString ("a" +:+ LF)] ->
  json_Unmarshal L f3 = Ok [VString "stdout"; VString ("b" +:+ LF)] ->
  json_Unmarshal L f4 = Ok [VString "disconnect"] ->
  json_Unmarshal L f4' = Ok [VString "disconnect"; x] ->
  let seen := [EvRead k; EvRead k; EvStdout ("a" +:+ LF); EvRead k;
               EvStdout ("b" +:+ LF); EvRead k] in
  stdout_of seen = "a" +:+ LF +:+ "b" +:+ LF /\
  receives seen = 4%nat /\
  ReadMessages L c ([Ok f1; Ok f2; Ok f3; Ok f4] ++ rest) =
    ReadMessages_loop L k rest seen /\
  ReadMessages L c [Ok f1; Ok f2; Ok f3; Ok f4] =
    (Running, seen ++ [EvRead k]) /\
  ReadMessages L c ([Ok f1; Ok f2; Ok f3; Ok f4'] ++ rest) =
    (Terminated, seen ++ [EvLog "Terminal disconnected"]).
Proof.
  intros Hk H1 H2 H3 H4 H4' seen.
  assert (E1 : ReadMessages_iter L (Ok f1) = ([], Continue))
    by (unfold ReadMessages_iter; rewrite H1; reflexivity).
  assert (E2 : ReadMessages_iter L (Ok f2)
               = ([EvStdout ("a" +:+ LF)], Continue))
    by (unfold ReadMessages_iter; rewrite H2; reflexivity).
  assert (E3 : ReadMessages_iter L (Ok f3)
               = ([EvStdout ("b" +:+ LF)], Continue))
    by (unfold ReadMessages_iter; rewrite H3; reflexivity).
  assert (E4 : ReadMessages_iter L (Ok f4) = ([], Continue))
    by (unfold ReadMessages_iter; rewrite H4; reflexivity).
  assert (E4' : ReadMessages_iter L (Ok f4')
                = ([EvLog "Terminal disconnected"], Return))
    by (unfold ReadMessages_iter; rewrite H4'; reflexivity).
  unfold ReadMessages. rewrite Hk. cbn [app].
  split; [reflexivity|]. split; [reflexivity|].
  split; [|split];
    repeat (rewrite ReadMessages_loop_cons;
            rewrite ?E1, ?E2, ?E3, ?E4, ?E4'; cbn [app]);
    reflexivity.
Qed.

End Relay.

Lemma ReadMessages_drops_witness :
  ReadMessages_iter Scripted.lib (Ok "not json") =
    ([EvLog "failed to parse message: invalid character"], Continue) /\
  ReadMessages_iter Scripted.lib (Ok (Scripted.wire ["disconnect"])) =
    ([], Continue).
Proof.
  split.
  - apply (proj1 (ReadMessages_drops Scripted.lib "not json" 0%nat [] [])
             (fmt_Errorf "invalid character")).
    reflexivity.
  - apply (proj2 (ReadMessages_drops Scripted.lib
                    (Scripted.wire ["disconnect"]) 0%nat [] [])
             [VString "disconnect"]).
    + reflexivity.
    + cbn. lia.
Defined.

Lemma ReadMessages_script_witness :
  let c := mkClient "http://localhost:8888" "" "1" (Some 0%nat) in
  let seen := [EvRead 0%nat; EvRead 0%nat; EvStdout ("a" +:+ LF);
               EvRead 0%nat; EvStdout ("b" +:+ LF); EvRead 0%nat] in
  let script := map (fun l => Ok (Scripted.wire l))
                  [["setup"]; ["stdout"; "a" +:+ LF];
                   ["stdout"; "b" +:+ LF]] in
  let bare := Ok (Scripted.wire ["disconnect"]) in
  let full := Ok ("[" +:+ Scripted.quote "disconnect" +:+ ",1]") in
  let more := [Ok (Scripted.wire ["stdout"; "c" +:+ LF])] in
  stdout_of seen = "a" +:+ LF +:+ "b" +:+ LF /\
  receives seen = 4%nat /\
  ReadMessages Scripted.lib c ((script ++ [bare]) ++ more) =
    ReadMessages_loop Scripted.lib 0%nat more seen /\
  ReadMessages Scripted.lib c (script ++ [bare]) =
    (Running, seen ++ [EvRead 0%nat]) /\
  ReadMessages Scripted.lib c ((script ++ [full]) ++ more) =
    (Terminated, seen ++ [EvLog "Terminal disconnected"]).
Proof.
  intros c seen script bare full more.
  apply (ReadMessages_script Scripted.lib c 0%nat
           (Scripted.wire ["setup"])
           (Scripted.wire ["stdout"; "a" +:+ LF])
           (Scripted.wire ["stdout"; "b" +:+ LF])
           (Scripted.wire ["disconnect"])
           ("[" +:+ Scripted.quote "disconnect" +:+ ",1]")
           Scripted.one more); reflexivity.
Defined.

(** C3, as the claim has it, fails: after the fourth frame
    [["disconnect"]] the loop is still running, it has issued a fifth
    receive, and it writes the text of a frame that follows. *)
Lemma ReadMessages_bare_disconnect_goes_on :
  let c := mkClient "http://localhost:8888" "" "1" (Some 0%nat) in
  let script := map (fun l => Ok (Scripted.wire l))
                  [["setup"]; ["stdout"; "a" +:+ LF];
                   ["stdout"; "b" +:+ LF]; ["disconnect"]] in
  let more := [Ok (Scripted.wire ["stdout"; "c" +:+ LF])] in
  ReadMessages Scripted.lib c script =
    (Running,
     [EvRead 0%nat; EvRead 0%nat; EvStdout ("a" +:+ LF); EvRead 0%nat;
      EvStdout ("b" +:+ LF); EvRead 0%nat; EvRead 0%nat]) /\
  receives (snd (ReadMessages Scripted.lib c script)) = 5%nat /\
  fst (ReadMessages Scripted.lib c (script ++ more)) = Running /\
  stdout_of (snd (ReadMessages Scripted.lib c (script ++ more))) =
    "a" +:+ LF +:+ "b" +:+ LF +:+ "c" +:+ LF.
Proof. repeat split; vm_compute; reflexivity. Qed.

(** ** Footprints *)

Section Footprint.

Context {B : Type} (P : Event -> bool) (f : JupyterClient -> B).

Lemma within_ret {A} (a : A) : within P f (ret a).
Proof.
  intros c tr o c' tr' H. inversion H; subst. split; [reflexivity|].
  exists []. rewrite app_nil_r. auto.
Qed.

Lemma within_self : within P f self.
Proof.
  intros c tr o c' tr' H. inversion H; subst. split; [reflexivity|].
  exists []. rewrite app_nil_r. auto.
Qed.

Lemma within_exit {A} code : within P f (@os_Exit A code).
Proof.
  intros c tr o c' tr' H. inversion H; subst. split; [reflexivity|].
  exists []. rewrite app_nil_r. auto.
Qed.

Lemma within_panic {A} reason : within P f (@panic A reason).
Proof.
  intros c tr o c' tr' H. inversion H; subst. split; [reflexivity|].
  exists []. rewrite app_nil_r. auto.
Qed.

Lemma within_emit e : P e = true -> within P f (emit e).
Proof.
  intros He c tr o c' tr' H. inversion H; subst. split; [reflexivity|].
  exists [e]. cbn. rewrite He. auto.
Qed.

Lemma within_modify g : (forall c, f (g c) = f c) -> within P f (modify g).
Proof.
  intros Hg c tr o c' tr' H. inversion H; subst. split; [apply Hg|].
  exists []. rewrite app_nil_r. auto.
Qed.

Lemma within_bind {A C} (m : M A) (k : A -> M C) :
  within P f m -> (forall a, within P f (k a)) -> within P f (bind m k).
Proof.
  intros Hm Hk c tr o c' tr'. unfold bind.
  destruct (m c tr) as [[[a|code|reason] c1] tr1] eqn:Em;
    destruct (Hm _ _ _ _ _ Em) as (Hf & ext & -> & Hext).
  - intros Ek. destruct (Hk a _ _ _ _ _ Ek) as (Hf' & ext' & -> & Hext').
    split; [congruence|]. exists (ext ++ ext').
    rewrite app_assoc, forallb_app, Hext, Hext'. auto.
  - intros H. inversion H; subst. eauto.
  - intros H. inversion H; subst. eauto.
Qed.

Lemma within_defer {A C} (d : M C) (body : M A) :
  within P f d -> within P f body -> within P f (defer d body).
Proof.
  intros Hd Hb c tr o c' tr'. unfold defer.
  destruct (body c tr) as [[[a|code|reason] c1] tr1] eqn:Eb;
    destruct (Hb _ _ _ _ _ Eb) as (Hf & ext & -> & Hext).
  2: { intros H. inversion H; subst. eauto. }
  all: destruct (d c1 (tr ++ ext)) as [[o2 c2] tr2] eqn:Ed;
    destruct (Hd _ _ _ _ _ Ed) as (Hf' & ext' & -> & Hext');
    intros H;
    assert (c' = c2 /\ tr' = (tr ++ ext) ++ ext') as [-> ->]
      by (destruct o2; inversion H; auto);
    (split; [congruence|]); exists (ext ++ ext');
    rewrite app_assoc, forallb_app, Hext, Hext'; auto.
Qed.

End Footprint.

Ltac expose :=
  cbv beta zeta delta
    [mbind M_bind mret M_ret fmt_Print fmt_Println log_Print log_Fatal
     time_Sleep].

Ltac within_step :=
  first
    [ apply within_ret | apply within_self | apply within_exit
    | apply within_panic
    | apply within_emit; solve [auto]
    | apply within_modify; solve [auto]
    | apply within_bind; [|intros ?]
    | apply within_defer
    | match goal with
      | |- within _ _ (match ?x with _ => _ end) => destruct x
      | |- within _ _ (if ?b then _ else _) => destruct b
      end ].

Section Footprints.

Context (L : Lib) (E : Env).
Context {B : Type} (P : Event -> bool) (f : JupyterClient -> B).

Lemma within_call_Do req :
  P (EvHttpDo req) = true -> within P f (call_Do E req).
Proof.
  intros He c tr o c' tr' H. inversion H; subst. split; [reflexivity|].
  eexists. split; [reflexivity|]. cbn. rewrite He. auto.
Qed.

Lemma within_call_Dial urlStr :
  P (EvDial urlStr) = true -> within P f (call_Dial E urlStr).
Proof.
  intros He c tr o c' tr' H. inversion H; subst. split; [reflexivity|].
  eexists. split; [reflexivity|]. cbn. rewrite He. auto.
Qed.

Lemma within_call_WriteMessage k t data :
  P (EvWrite k t data) = true -> within P f (call_WriteMessage E k t data).
Proof.
  intros He c tr o c' tr' H. inversion H; subst. split; [reflexivity|].
  eexists. split; [reflexivity|]. cbn. rewrite He. auto.
Qed.

Lemma within_call_Close k :
  P (EvClose k) = true -> within P f (call_Close E k).
Proof.
  intros He c tr o c' tr' H. inversion H; subst. split; [reflexivity|].
  eexists. split; [reflexivity|]. cbn. rewrite He. auto.
Qed.

(** [SendCommand] writes to the connection and does nothing else. *)
Lemma SendCommand_within cmd :
  (forall e, is_write e = true -> P e = true) ->
  within P f (SendCommand L E cmd).
Proof.
  intros HP. unfold SendCommand. expose.
  repeat first [apply within_call_WriteMessage; solve [auto] | within_step].
Qed.

(** [Close] writes, sleeps and closes. *)
Lemma Close_within :
  (forall e, session_event e = true -> P e = true) ->
  within P f (Close L E).
Proof.
  intros HP. unfold Close. expose.
  repeat first [ apply SendCommand_within; intros []; solve [auto]
               | apply within_call_Close; solve [auto]
               | within_step ].
Qed.

(** [Connect] prints, dials and stores the connection. *)
Lemma Connect_within :
  (forall e, connect_event e = true -> P e = true) ->
  (forall v c, f (set_conn v c) = f c) ->
  within P f (Connect L E).
Proof.
  intros HP Hf. unfold Connect. expose.
  repeat first [apply within_call_Dial; solve [auto] | within_step].
Qed.

Lemma main_connect_within :
  (forall e, connect_event e = true -> P e = true) ->
  (forall v c, f (set_conn v c) = f c) ->
  within P f (main_connect L E).
Proof.
  intros HP Hf. unfold main_connect. expose.
  repeat first [apply Connect_within; solve [auto] | within_step].
Qed.

(** [CreateTerminal] issues the request, closes the body and prints. *)
Lemma CreateTerminal_within :
  (forall e, provision_event e = true -> P e = true) ->
  (forall v c, f (set_terminalID v c) = f c) ->
  within P f (CreateTerminal L E).
Proof.
  intros HP Hf. unfold CreateTerminal. expose.
  repeat first [apply within_call_Do; solve [auto] | within_step].
Qed.

Lemma main_terminal_within fl :
  (forall e, provision_event e = true -> P e = true) ->
  (forall v c, f (set_terminalID v c) = f c) ->
  within P f (main_terminal L E fl).
Proof.
  intros HP Hf. unfold main_terminal. expose.
  repeat first [apply CreateTerminal_within; solve [auto] | within_step].
Qed.

Lemma main_startup_within fl :
  (forall e, provision_event e = true -> P e = true) ->
  (forall e, connect_event e = true -> P e = true) ->
  (forall v c, f (set_terminalID v c) = f c) ->
  (forall v c, f (set_conn v c) = f c) ->
  within P f (main_startup L E fl).
Proof.
  intros HP HP' Hf Hf'. unfold main_startup. expose.
  repeat first [ apply main_terminal_within; solve [auto]
               | apply main_connect_within; solve [auto]
               | within_step ].
Qed.

(** The interactive loop prompts, scans, writes, logs and sleeps, and
    leaves the client as it is. *)
Lemma InteractiveShell_loop_within stdin :
  (forall e, session_event e = true -> P e = true) ->
  within P f (InteractiveShell_loop L E stdin).
Proof.
  intros HP. induction stdin as [|cmd stdin IH];
    cbn [InteractiveShell_loop]; expose;
    repeat first [ apply SendCommand_within; intros []; solve [auto]
                 | exact IH
                 | within_step ].
Qed.

Lemma InteractiveShell_within stdin :
  (forall e, session_event e = true -> P e = true) ->
  within P f (InteractiveShell L E stdin).
Proof.
  intros HP. unfold InteractiveShell. expose.
  repeat first [ apply InteractiveShell_loop_within; solve [auto]
               | within_step ].
Qed.

Lemma main_input_within fl stdin :
  (forall e, session_event e = true -> P e = true) ->
  within P f (main_input L E fl stdin).
Proof.
  intros HP. unfold main_input. expose.
  repeat first [ apply InteractiveShell_within; solve [auto]
               | apply SendCommand_within; intros []; solve [auto]
               | within_step ].
Qed.

(** The session under the deferred [Close], and the [Close]. *)
Lemma main_session_within fl stdin :
  (forall e, session_event e = true -> P e = true) ->
  within P f (defer (Close L E) (main_session L E fl stdin)).
Proof.
  intros HP. unfold main_session. expose.
  repeat first [ apply main_input_within; solve [auto]
               | apply Close_within; solve [auto]
               | within_step ].
Qed.

End Footprints.

(** ** The controller *)

Section Controller.

Context (L : Lib) (E : Env).

(** [main] is its startup followed, when the startup returns, by the
    session under the deferred [Close]. *)
Lemma main_unfold fl stdin :
  main L E fl stdin =
  match main_startup L E fl
          (NewJupyterClient (serverURL fl) (flag_token fl)) [] with
  | (Ret _, c1, tr1) =>
      defer (Close L E) (main_session L E fl stdin) c1 tr1
  | (Exit code, c1, tr1) => (Exit code, c1, tr1)
  | (Panic reason, c1, tr1) => (Panic reason, c1, tr1)
  end.
Proof. reflexivity. Qed.

(** A startup that returns leaves a connection in the client. *)
Lemma main_startup_ok fl c tr c1 tr1 :
  main_startup L E fl c tr = (Ret tt, c1, tr1) ->
  exists k, conn c1 = Some k.
Proof.
  unfold main_startup, main_connect. run.
  destruct (main_terminal L E fl c tr) as [[[[]|code|reason] ca] tra];
    try discriminate.
  destruct (Connect_returns L E ca tra) as (r & cb & trb & Hc).
  rewrite Hc. destruct r as [err|]; [discriminate|].
  intros H. inversion H; subst.
  destruct (Connect_ok L E _ _ _ _ Hc) as [k ->]. exists k. reflexivity.
Qed.

(** With an identifier on the command line, the first step of [main] is
    the assignment and the message. *)
Lemma main_terminal_attach fl c tr :
  termID fl <> "" ->
  main_terminal L E fl c tr =
    (Ret tt, set_terminalID (termID fl) c,
     tr ++ [EvStdout ("Using existing terminal: " +:+ termID fl +:+ LF)]).
Proof.
  intros Ht. unfold main_terminal. apply String.eqb_neq in Ht. rewrite Ht.
  reflexivity.
Qed.

(** C8. With a non-empty [-term] identifier, [main] starts by storing it
    as the client's session identifier; [Connect] and all that follows run
    on that client, no HTTP request is issued in the whole run, and the
    client ends with the identifier supplied. *)
Theorem main_attach fl stdin :
  termID fl <> "" ->
  let c0 := NewJupyterClient (serverURL fl) (flag_token fl) in
  let banner :=
    EvStdout ("Using existing terminal: " +:+ termID fl +:+ LF) in
  exists o c' rest,
    main L E fl stdin = (o, c', banner :: rest) /\
    (main_connect L E;; defer (Close L E) (main_session L E fl stdin))
      (set_terminalID (termID fl) c0) [banner] = (o, c', banner :: rest) /\
    forallb (fun e => negb (is_http e)) (banner :: rest) = true /\
    terminalID c' = termID fl.
Proof.
  intros Ht c0 banner.
  set (rest_of_main :=
         (main_connect L E;; defer (Close L E) (main_session L E fl stdin))).
  assert (Hmain : main L E fl stdin
                  = rest_of_main (set_terminalID (termID fl) c0) [banner]).
  { unfold main, main_client, main_startup. run.
    rewrite (main_terminal_attach fl _ _ Ht). reflexivity. }
  assert (Hw : within (fun e => negb (is_http e)) terminalID rest_of_main).
  { subst rest_of_main. expose. apply within_bind; [|intros _].
    - apply main_connect_within; [intros []|]; auto; discriminate.
    - apply main_session_within. intros []; auto; discriminate. }
  destruct (rest_of_main (set_terminalID (termID fl) c0) [banner])
    as [[o c'] tr'] eqn:Er.
  destruct (Hw _ _ _ _ _ Er) as (Hid & ext & -> & Hext).
  exists o, c', ext. rewrite Hmain. repeat split; auto.
Qed.

(** The command that single command mode puts on the wire. *)
Lemma main_input_single fl stdin c tr k data :
  flag_Args fl <> [] ->
  conn c = Some k ->
  (let cmd := strings.Join (flag_Args fl) " " in
   json_Marshal L
     [VString "stdin";
      VString (if strings.HasSuffix cmd LF then cmd else cmd +:+ LF)])
  = Ok data ->
  main_input L E fl stdin c tr =
    match conn_WriteMessage E tr k websocket_TextMessage data with
    | None =>
        (Ret tt, c,
         tr ++ [EvWrite k websocket_TextMessage data;
                EvSleep (2 * time_Second)])
    | Some err =>
        (Exit 1, c,
         tr ++ [EvWrite k websocket_TextMessage data;
                EvLog ("Failed to send command: " +:+ Error err)])
    end.
Proof.
  intros Ha Hk Hm. unfold main_input.
  destruct (flag_Args fl) as [|a args] eqn:Hargs; [congruence|].
  cbn [length Nat.ltb Nat.leb]. cbv iota. run.
  rewrite SendCommand_unfold. cbv zeta in Hm |- *. rewrite Hm, Hk.
  destruct (conn_WriteMessage E tr k _ data); rewrite <- app_assoc;
    reflexivity.
Qed.

(** C9. In single command mode, once the startup has returned, [main]
    hands the connection one frame, the encoding of the arguments joined
    by single spaces and ended by a line feed, and reads no line of the
    standard input: if the write succeeds it sleeps two seconds, says
    goodbye and tears the session down; if the write fails the process
    exits at once. *)
Theorem main_single_shot fl stdin c1 tr1 data bye :
  flag_Args fl <> [] ->
  main_startup L E fl (NewJupyterClient (serverURL fl) (flag_token fl)) []
    = (Ret tt, c1, tr1) ->
  (let cmd := strings.Join (flag_Args fl) " " in
   json_Marshal L
     [VString "stdin";
      VString (if strings.HasSuffix cmd LF then cmd else cmd +:+ LF)])
  = Ok data ->
  json_Marshal L [VString "stdin"; VString ("exit" +:+ LF)] = Ok bye ->
  forallb (fun e => negb (is_scan e) && negb (is_write e)) tr1 = true /\
  exists k,
    conn c1 = Some k /\
    main L E fl stdin =
      match conn_WriteMessage E (tr1 ++ [EvGoReadMessages]) k
              websocket_TextMessage data with
      | None =>
          (Ret tt, c1,
           tr1 ++ [EvGoReadMessages;
                   EvWrite k websocket_TextMessage data;
                   EvSleep (2 * time_Second);
                   EvStdout (LF +:+ "Goodbye!" +:+ LF);
                   EvWrite k websocket_TextMessage bye;
                   EvSleep (500 * time_Millisecond);
                   EvClose k])
      | Some err =>
          (Exit 1, c1,
           tr1 ++ [EvGoReadMessages;
                   EvWrite k websocket_TextMessage data;
                   EvLog ("Failed to send command: " +:+ Error err)])
      end.
Proof.
  intros Ha Hs Hm Hb. split.
  - assert (Hw : within (fun e => negb (is_scan e) && negb (is_write e))
                   (fun _ => tt) (main_startup L E fl)).
    { apply main_startup_within; try (intros []); auto; discriminate. }
    destruct (Hw _ _ _ _ _ Hs) as (_ & ext & -> & Hext). exact Hext.
  - destruct (main_startup_ok _ _ _ _ _ Hs) as [k Hk]. exists k.
    split; [exact Hk|].
    rewrite main_unfold, Hs. unfold defer, main_session. run.
    rewrite (main_input_single fl stdin c1 _ k data Ha Hk Hm).
    destruct (conn_WriteMessage E (tr1 ++ [EvGoReadMessages]) k _ data).
    + rewrite <- !app_assoc. reflexivity.
    + rewrite (Close_conn L E c1 _ k bye Hk Hb).
      rewrite <- !app_assoc. reflexivity.
Qed.

(** X16. In interactive mode a failed send ends the loop: the error is
    logged, and the lines that follow on the standard input are not
    read. *)
Lemma InteractiveShell_loop_send_error cmd stdin c tr k data err :
  cmd <> "exit" ->
  conn c = Some k ->
  json_Marshal L
    [VString "stdin";
     VString (if strings.HasSuffix cmd LF then cmd else cmd +:+ LF)]
  = Ok data ->
  conn_WriteMessage E (tr ++ [EvStdout (LF +:+ "$ "); EvScan]) k
    websocket_TextMessage data = Some err ->
  InteractiveShell_loop L E (cmd :: stdin) c tr =
    (Ret tt, c,
     tr ++ [EvStdout (LF +:+ "$ "); EvScan;
            EvWrite k websocket_TextMessage data;
            EvLog ("failed to send command: " +:+ Error err)]).
Proof.
  intros Hc Hk Hm Hw. cbn [InteractiveShell_loop]. run.
  apply String.eqb_neq in Hc. rewrite Hc.
  rewrite SendCommand_unfold. cbv zeta. rewrite Hm, Hk.
  rewrite <- !app_assoc in *. cbn [app] in *. rewrite Hw.
  rewrite <- !app_assoc. reflexivity.
Qed.

(** The interactive loop always returns, and leaves the client as it
    was. *)
Lemma InteractiveShell_loop_returns stdin : forall c tr k,
  conn c = Some k ->
  exists ext, InteractiveShell_loop L E stdin c tr = (Ret tt, c, tr ++ ext).
Proof.
  induction stdin as [|cmd stdin IH]; intros c tr k Hk;
    cbn [InteractiveShell_loop]; run.
  - rewrite <- app_assoc. eauto.
  - destruct (cmd =? "exit")%string.
    { rewrite <- app_assoc. eauto. }
    rewrite SendCommand_unfold. cbv zeta.
    destruct (json_Marshal L _) as [data|err].
    + rewrite Hk. destruct (conn_WriteMessage E _ k _ data).
      * rewrite <- !app_assoc. eauto.
      * match goal with
        | |- context [InteractiveShell_loop L E stdin c ?t] =>
            destruct (IH c t k Hk) as [ext Hext]; rewrite Hext
        end.
        rewrite <- !app_assoc. eauto.
    + rewrite <- !app_assoc. eauto.
Qed.

Lemma InteractiveShell_returns stdin c tr k :
  conn c = Some k ->
  exists ext, InteractiveShell L E stdin c tr = (Ret tt, c, tr ++ ext).
Proof.
  intros Hk. unfold InteractiveShell. run.
  match goal with
  | |- context [InteractiveShell_loop L E stdin c ?t] =>
      destruct (InteractiveShell_loop_returns stdin c t k Hk) as [ext Hext];
      rewrite Hext
  end.
  rewrite <- !app_assoc. eauto.
Qed.

(** The session in interactive mode returns after saying goodbye. *)
Lemma main_session_interactive fl stdin c tr k :
  flag_Args fl = [] ->
  conn c = Some k ->
  exists mid,
    main_session L E fl stdin c tr =
      (Ret tt, c,
       (tr ++ EvGoReadMessages :: mid)
       ++ [EvStdout (LF +:+ "Goodbye!" +:+ LF)]).
Proof.
  intros Ha Hk. unfold main_session, main_input. rewrite Ha.
  change (0 <? length (@nil string))%nat with false. cbv iota. run.
  destruct (InteractiveShell_returns stdin c (tr ++ [EvGoReadMessages]) k Hk)
    as [ext Hext].
  rewrite Hext. exists ext. rewrite <- !app_assoc. reflexivity.
Qed.

(** X17. In interactive mode, once the startup has returned, [main]
    always ends with the teardown, whichever way the loop ended. *)
Lemma main_interactive_teardown fl stdin c1 tr1 bye :
  flag_Args fl = [] ->
  main_startup L E fl (NewJupyterClient (serverURL fl) (flag_token fl)) []
    = (Ret tt, c1, tr1) ->
  json_Marshal L [VString "stdin"; VString ("exit" +:+ LF)] = Ok bye ->
  exists k mid,
    conn c1 = Some k /\
    main L E fl stdin =
      (Ret tt, c1,
       ((tr1 ++ EvGoReadMessages :: mid)
        ++ [EvStdout (LF +:+ "Goodbye!" +:+ LF)])
       ++ [EvWrite k websocket_TextMessage bye;
           EvSleep (500 * time_Millisecond);
           EvClose k]).
Proof.
  intros Ha Hs Hb. destruct (main_startup_ok _ _ _ _ _ Hs) as [k Hk].
  destruct (main_session_interactive fl stdin c1 tr1 k Ha Hk) as [mid Hmid].
  exists k, mid. split; [exact Hk|].
  rewrite main_unfold, Hs. unfold defer. rewrite Hmid.
  rewrite (Close_conn L E c1 _ k bye Hk Hb). reflexivity.
Qed.

End Controller.

Lemma main_attach_witness :
  let fl := mkFlags "https://jupyter.company.com" "abc" "7" [] in
  let c0 := NewJupyterClient (serverURL fl) (flag_token fl) in
  let banner :=
    EvStdout ("Using existing terminal: " +:+ termID fl +:+ LF) in
  let L := Scripted.lib in
  let E := Scripted.server Scripted.created [] in
  exists o c' rest,
    main L E fl ["ls"] = (o, c', banner :: rest) /\
    (main_connect L E;; defer (Close L E) (main_session L E fl ["ls"]))
      (set_terminalID (termID fl) c0) [banner] = (o, c', banner :: rest) /\
    forallb (fun e => negb (is_http e)) (banner :: rest) = true /\
    terminalID c' = termID fl.
Proof.
  intros fl c0 banner L E. apply (main_attach L E fl ["ls"]). discriminate.
Defined.

Lemma main_single_shot_witness :
  let fl := mkFlags "http://localhost:8888" "" "" ["git"; "status"] in
  let L := Scripted.lib in
  let E := Scripted.server Scripted.created [] in
  let c1 := mkClient "http://localhost:8888" "" "1" (Some 0%nat) in
  let tr1 :=
    [EvHttpDo (mkRequest "POST" "http://localhost:8888/api/terminals" ∅);
     EvStdout ("Created terminal: 1" +:+ LF);
     EvBodyClose;
     EvStdout ("Connecting to: ws://localhost:8888/terminals/websocket/1"
               +:+ LF);
     EvDial "ws://localhost:8888/terminals/websocket/1"] in
  let data := Scripted.wire ["stdin"; "git status" +:+ LF] in
  let bye := Scripted.wire ["stdin"; "exit" +:+ LF] in
  forallb (fun e => negb (is_scan e) && negb (is_write e)) tr1 = true /\
  exists k,
    conn c1 = Some k /\
    main L E fl [] =
      match conn_WriteMessage E (tr1 ++ [EvGoReadMessages]) k
              websocket_TextMessage data with
      | None =>
          (Ret tt, c1,
           tr1 ++ [EvGoReadMessages;
                   EvWrite k websocket_TextMessage data;
                   EvSleep (2 * time_Second);
                   EvStdout (LF +:+ "Goodbye!" +:+ LF);
                   EvWrite k websocket_TextMessage bye;
                   EvSleep (500 * time_Millisecond);
                   EvClose k])
      | Some err =>
          (Exit 1, c1,
           tr1 ++ [EvGoReadMessages;
                   EvWrite k websocket_TextMessage data;
                   EvLog ("Failed to send command: " +:+ Error err)])
      end.
Proof.
  intros fl L E c1 tr1 data bye.
  apply (main_single_shot L E fl [] c1 tr1 data bye);
    try (vm_compute; reflexivity).
  discriminate.
Defined.

(** The arguments [git status] go out as one frame, and the session is
    torn down after it. *)
Example main_git_status :
  main Scripted.lib (Scripted.server Scripted.created [])
    (mkFlags "http://localhost:8888" "" "7" ["git"; "status"]) ["ls"] =
  (Ret tt, mkClient "http://localhost:8888" "" "7" (Some 0%nat),
   [EvStdout ("Using existing terminal: 7" +:+ LF);
    EvStdout ("Connecting to: ws://localhost:8888/terminals/websocket/7"
              +:+ LF);
    EvDial "ws://localhost:8888/terminals/websocket/7";
    EvGoReadMessages;
    EvWrite 0%nat 1 (Scripted.wire ["stdin"; "git status" +:+ LF]);
    EvSleep 2000000000;
    EvStdout (LF +:+ "Goodbye!" +:+ LF);
    EvWrite 0%nat 1 (Scripted.wire ["stdin"; "exit" +:+ LF]);
    EvSleep 500000000;
    EvClose 0%nat]).
Proof. vm_compute. reflexivity. Qed.

(** C1 on the code. In single command mode a failed send ends the
    process through [log.Fatalf]: the deferred [Close] does not run, so no
    exit command is sent and the connection is not closed.  In interactive
    mode the same failure ends the loop and the teardown follows. *)
Theorem main_send_failure :
  let L := Scripted.lib in
  let E := Scripted.server Scripted.created [0%nat] in
  let c := mkClient "http://localhost:8888" "" "7" (Some 0%nat) in
  let startup :=
    [EvStdout ("Using existing terminal: 7" +:+ LF);
     EvStdout ("Connecting to: ws://localhost:8888/terminals/websocket/7"
               +:+ LF);
     EvDial "ws://localhost:8888/terminals/websocket/7";
     EvGoReadMessages] in
  let ls := EvWrite 0%nat 1 (Scripted.wire ["stdin"; "ls" +:+ LF]) in
  main L E (mkFlags "http://localhost:8888" "" "7" ["ls"]) [] =
    (Exit 1, c,
     startup ++ [ls; EvLog "Failed to send command: broken pipe"]) /\
  main L E (mkFlags "http://localhost:8888" "" "7" []) ["ls"; "pwd"] =
    (Ret tt, c,
     startup
     ++ [EvSleep 1000000000;
         EvStdout (LF +:+ "Jupyter Terminal Shell" +:+ LF);
         EvStdout ("Type 'exit' or press Ctrl+C to quit" +:+ LF);
         EvStdout ("----------------------------------------" +:+ LF);
         EvStdout (LF +:+ "$ "); EvScan;
         ls; EvLog "failed to send command: broken pipe";
         EvStdout (LF +:+ "Goodbye!" +:+ LF);
         EvWrite 0%nat 1 (Scripted.wire ["stdin"; "exit" +:+ LF]);
         EvSleep 500000000;
         EvClose 0%nat]).
Proof. split; vm_compute; reflexivity. Qed.

(** * Further properties of the client *)

(** ** Construction *)

Lemma substring_take p q :
  String.substring 0 (String.length p) (p +:+ q) = p.
Proof.
  induction p as [|a p IH]; [destruct q; reflexivity|].
  rewrite app_cons. cbn [String.length String.substring]. now rewrite IH.
Qed.

(** X1. [NewJupyterClient] stores the token as given and the URL without
    one trailing slash: of a URL [p/] it stores [p], and a URL that does
    not end in a slash is stored as it is. *)
Theorem NewJupyterClient_fields url tok :
  token (NewJupyterClient url tok) = tok /\
  (forall p, url = p +:+ "/" -> baseURL (NewJupyterClient url tok) = p) /\
  (~ (exists p, url = p +:+ "/") ->
   baseURL (NewJupyterClient url tok) = url).
Proof.
  split; [reflexivity|]. cbn [NewJupyterClient baseURL].
  unfold strings.TrimSuffix. split.
  - intros p ->.
    assert (strings.HasSuffix (p +:+ "/") "/" = true) as ->
      by (apply HasSuffix_spec; eauto).
    rewrite length_app.
    replace (String.length p + String.length "/" - String.length "/")%nat
      with (String.length p) by lia.
    apply substring_take.
  - intros Hn. apply HasSuffix_false in Hn. rewrite Hn. reflexivity.
Qed.

Lemma NewJupyterClient_fields_witness :
  baseURL (NewJupyterClient "http://localhost:8888/" "abc")
    = "http://localhost:8888" /\
  baseURL (NewJupyterClient "http://localhost:8888//" "abc")
    = "http://localhost:8888/" /\
  baseURL (NewJupyterClient "http://localhost:8888" "abc")
    = "http://localhost:8888".
Proof.
  split; [|split].
  - apply (proj1 (proj2 (NewJupyterClient_fields
                           "http://localhost:8888/" "abc"))).
    reflexivity.
  - apply (proj1 (proj2 (NewJupyterClient_fields
                           "http://localhost:8888//" "abc"))).
    reflexivity.
  - apply (proj2 (proj2 (NewJupyterClient_fields
                           "http://localhost:8888" "abc"))).
    intros H. apply HasSuffix_spec in H. discriminate H.
Defined.

(** ** Provisioning: the request, the body, the errors *)

Section ProvisioningMore.

Context (L : Lib) (E : Env).

(** X2. [CreateTerminal] issues exactly one HTTP request, the one that
    [http.NewRequest] built for [POST baseURL/api/terminals]; it carries
    the header [Authorization: token <token>] when the token is not empty
    and is sent untouched when the token is empty.  When the request
    cannot be built, nothing is sent. *)
Theorem CreateTerminal_request c tr :
  (forall err,
     http_NewRequest L "POST" (baseURL c +:+ "/api/terminals") = Err err ->
     CreateTerminal L E c tr = (Ret (Some err), c, tr)) /\
  (forall req0,
     http_NewRequest L "POST" (baseURL c +:+ "/api/terminals") = Ok req0 ->
     exists req r c' rest,
       CreateTerminal L E c tr = (Ret r, c', tr ++ EvHttpDo req :: rest) /\
       forallb (fun e => negb (is_http e)) rest = true /\
       Method req = Method req0 /\ ReqURL req = ReqURL req0 /\
       (token c <> "" ->
        Header req
        = <["Authorization" := ["token " +:+ token c]]> (Header req0)) /\
       (token c = "" -> req = req0)).
Proof.
  split.
  - intros err He. rewrite CreateTerminal_unfold, He. reflexivity.
  - intros req0 Hr. rewrite CreateTerminal_unfold, Hr. cbv zeta.
    set (req := if negb (token c =? "")%string
                then Header_Set req0 "Authorization" ("token " +:+ token c)
                else req0).
    assert (Hreq : Method req = Method req0 /\ ReqURL req = ReqURL req0 /\
              (token c <> "" ->
               Header req
               = <["Authorization" := ["token " +:+ token c]]> (Header req0))
              /\ (token c = "" -> req = req0)).
    { subst req. destruct (token c =? "")%string eqn:Ht; cbn [negb].
      - apply String.eqb_eq in Ht. repeat split; congruence.
      - apply String.eqb_neq in Ht. repeat split; try reflexivity.
        congruence. }
    clearbody req. exists req.
    destruct (client_Do E tr req) as [resp|err].
    2: { exists (Some err), c, []. repeat split; apply Hreq. }
    destruct (negb _ && negb _).
    { do 3 eexists. split; [reflexivity|]. split; [reflexivity|exact Hreq]. }
    destruct (json_Decode L _) as [result|err].
    2: { do 3 eexists. split; [reflexivity|].
         split; [reflexivity|exact Hreq]. }
    destruct (result !! "name") as [[| | |name| |]|];
      do 3 eexists; (split; [reflexivity|]);
      (split; [reflexivity|exact Hreq]).
Qed.

(** X3. When [CreateTerminal] returns an error, whichever it is, the
    client is what it was: no session identifier is stored. *)
Theorem CreateTerminal_error_keeps_client c tr err c' tr' :
  CreateTerminal L E c tr = (Ret (Some err), c', tr') -> c' = c.
Proof.
  rewrite CreateTerminal_unfold.
  destruct (http_NewRequest L _ _) as [req0|];
    [|intros H; inversion H; reflexivity].
  cbv zeta. destruct (client_Do E tr _) as [resp|];
    [|intros H; inversion H; reflexivity].
  destruct (negb _ && negb _); [intros H; inversion H; reflexivity|].
  destruct (json_Decode L _) as [result|];
    [|intros H; inversion H; reflexivity].
  destruct (result !! "name") as [[| | |name| |]|];
    intros H; inversion H; reflexivity.
Qed.

(** X4. The response body is closed exactly when there is a response:
    after a response, whatever its status and content, closing the body
    is the last call of [CreateTerminal], preceded by nothing but the
    request and at most a message on the console; after a transport error
    the request is the only call. *)
Theorem CreateTerminal_closes_body c tr req0 :
  http_NewRequest L "POST" (baseURL c +:+ "/api/terminals") = Ok req0 ->
  let req := if negb (token c =? "")%string
             then Header_Set req0 "Authorization" ("token " +:+ token c)
             else req0 in
  (forall resp,
     client_Do E tr req = Ok resp ->
     exists r c' mid,
       CreateTerminal L E c tr
       = (Ret r, c', tr ++ EvHttpDo req :: mid ++ [EvBodyClose]) /\
       forallb is_stdout mid = true /\ (length mid <= 1)%nat) /\
  (forall err,
     client_Do E tr req = Err err ->
     CreateTerminal L E c tr = (Ret (Some err), c, tr ++ [EvHttpDo req])).
Proof.
  intros Hr req. split.
  - intros resp Hd. rewrite CreateTerminal_unfold, Hr. cbv zeta.
    fold req. rewrite Hd.
    destruct (negb _ && negb _).
    { exists (Some (fmt_Errorf ("failed to create terminal: "
                                +:+ Status resp +:+ " - " +:+ Body resp))),
             c, []. repeat split; auto. }
    destruct (json_Decode L _) as [result|err].
    2: { exists (Some err), c, []. repeat split; auto. }
    destruct (result !! "name") as [[| | |name| |]|];
      try (eexists _, c, []; repeat split; auto; fail).
    exists None, (set_terminalID name c),
           [EvStdout ("Created terminal: " +:+ name +:+ LF)].
    repeat split; auto.
  - intros err Hd. rewrite CreateTerminal_unfold, Hr. cbv zeta.
    fold req. rewrite Hd. reflexivity.
Qed.

End ProvisioningMore.

Lemma CreateTerminal_request_witness :
  let c := NewJupyterClient "http://localhost:8888/" "abc" in
  let req0 := mkRequest "POST" "http://localhost:8888/api/terminals" ∅ in
  let L := Scripted.lib in
  let E := Scripted.server Scripted.created [] in
  exists req r c' rest,
    CreateTerminal L E c [] = (Ret r, c', [] ++ EvHttpDo req :: rest) /\
    forallb (fun e => negb (is_http e)) rest = true /\
    Method req = Method req0 /\ ReqURL req = ReqURL req0 /\
    (token c <> "" ->
     Header req
     = <["Authorization" := ["token " +:+ token c]]> (Header req0)) /\
    (token c = "" -> req = req0).
Proof.
  intros c req0 L E.
  apply (proj2 (CreateTerminal_request L E c []) req0). reflexivity.
Defined.

Lemma CreateTerminal_error_keeps_client_witness :
  let c := NewJupyterClient "http://localhost:8888/" "abc" in
  let E := Scripted.server (Ok (mkResponse "201 Created" 201 "{}")) [] in
  let req := mkRequest "POST" "http://localhost:8888/api/terminals"
               {[ "Authorization" := ["token abc"] ]} in
  CreateTerminal Scripted.lib E c []
  = (Ret (Some (fmt_Errorf "terminal ID not found in response")), c,
     [EvHttpDo req; EvBodyClose]) /\
  c = c.
Proof.
  intros c E req. split; [vm_compute; reflexivity|].
  refine (CreateTerminal_error_keeps_client Scripted.lib E c []
            (fmt_Errorf "terminal ID not found in response") c
            [EvHttpDo req; EvBodyClose] _).
  vm_compute. reflexivity.
Defined.

Lemma CreateTerminal_closes_body_witness :
  let c := NewJupyterClient "http://localhost:8888/" "" in
  let req := mkRequest "POST" "http://localhost:8888/api/terminals" ∅ in
  let resp := mkResponse "200 OK" 200 "{}" in
  let L := Scripted.lib in
  (exists r c' mid,
     CreateTerminal L (Scripted.server (Ok resp) []) c []
     = (Ret r, c', [] ++ EvHttpDo req :: mid ++ [EvBodyClose]) /\
     forallb is_stdout mid = true /\ (length mid <= 1)%nat) /\
  CreateTerminal L (Scripted.server (Err (fmt_Errorf "refused")) []) c []
  = (Ret (Some (fmt_Errorf "refused")), c, [] ++ [EvHttpDo req]).
Proof.
  intros c req resp L. split.
  - apply (proj1 (CreateTerminal_closes_body L
                    (Scripted.server (Ok resp) []) c [] req eq_refl) resp).
    reflexivity.
  - apply (proj2 (CreateTerminal_closes_body L
                    (Scripted.server (Err (fmt_Errorf "refused")) []) c []
                    req eq_refl) (fmt_Errorf "refused")).
    reflexivity.
Defined.

(** ** Connecting: errors and the query *)

Section ConnectingMore.

Context (L : Lib) (E : Env).

(** X5. [Connect] changes nothing but the connection field, and that
    only on success.  When it returns no error, the client holds the
    connection that the dial, its last call, returned.  When it returns
    an error the client is what it was, and the error is either the parse
    error of the base URL, with nothing printed or dialled, or the error
    of the dial behind the text [websocket dial error: ]. *)
Theorem Connect_frame c tr r c' tr' :
  Connect L E c tr = (Ret r, c', tr') ->
  exists target,
    match r with
    | None =>
        exists k,
          c' = set_conn (Some k) c /\
          last tr' = Some (EvDial target) /\
          dialer_Dial E (removelast tr') target = Ok k
    | Some err =>
        c' = c /\
        ((url_Parse L (baseURL c) = Err err /\ tr' = tr) \/
         (exists e,
            err = fmt_Errorf ("websocket dial error: " +:+ Error e) /\
            last tr' = Some (EvDial target) /\
            dialer_Dial E (removelast tr') target = Err e))
    end.
Proof.
  unfold Connect. run.
  destruct (url_Parse L _) as [u|err].
  2: { intros [= <- <- <-]. exists "". auto. }
  cbv zeta.
  match goal with
  | |- context [dialer_Dial E _ ?x] => set (target := x)
  end.
  destruct (dialer_Dial E _ target) as [k|e] eqn:Hd;
    intros [= <- <- <-]; exists target;
    rewrite last_snoc, removelast_last.
  - exists k. auto.
  - split; [reflexivity|]. right. exists e. auto.
Qed.


End ConnectingMore.

Lemma Connect_frame_witness :
  let c := mkClient "http://localhost:8888" "" "1" None in
  let E := Scripted.server Scripted.created [] in
  let tr' :=
    [EvStdout ("Connecting to: ws://localhost:8888/terminals/websocket/1"
               +:+ LF);
     EvDial "ws://localhost:8888/terminals/websocket/1"] in
  (exists target k,
     set_conn (Some 0%nat) c = set_conn (Some k) c /\
     last tr' = Some (EvDial target) /\
     dialer_Dial E (removelast tr') target = Ok k) /\
  (exists target,
     mkClient "localhost" "" "1" None = mkClient "localhost" "" "1" None /\
     ((url_Parse Scripted.lib "localhost" = Err (fmt_Errorf "parse error")
       /\ @nil Event = []) \/
      (exists e,
         fmt_Errorf "parse error"
         = fmt_Errorf ("websocket dial error: " +:+ Error e) /\
         last (@nil Event) = Some (EvDial target) /\
         dialer_Dial E (removelast []) target = Err e))).
Proof.
  intros c E tr'. split.
  - destruct (Connect_frame Scripted.lib E c [] None
                (set_conn (Some 0%nat) c) tr') as [target H].
    + vm_compute. reflexivity.
    + exists target. exact H.
  - apply (Connect_frame Scripted.lib E (mkClient "localhost" "" "1" None)
             [] (Some (fmt_Errorf "parse error"))
             (mkClient "localhost" "" "1" None) []).
    vm_compute. reflexivity.
Defined.


(** ** Teardown and sending *)

Section SendingMore.

Context (L : Lib) (E : Env).

(** X7. [Close] on a client with a connection always closes it, whether
    or not the exit command could be encoded or written: the close is its
    last call, preceded by the 500 ms sleep, and what [Close] returns is
    what the close returned; the client is left as it was. *)
Theorem Close_always_closes c tr k :
  conn c = Some k ->
  exists sent,
    (sent = [] \/ exists data, sent = [EvWrite k websocket_TextMessage data])
    /\
    let before := tr ++ sent ++ [EvSleep (500 * time_Millisecond)] in
    Close L E c tr = (Ret (conn_Close E before k), c, before ++ [EvClose k]).
Proof.
  intros Hk. unfold Close. run. rewrite Hk.
  rewrite SendCommand_unfold. cbv zeta.
  destruct (json_Marshal L _) as [data|err].
  - rewrite Hk. exists [EvWrite k websocket_TextMessage data].
    split; [eauto|]. cbv zeta. rewrite <- !app_assoc. reflexivity.
  - exists []. split; [auto|]. cbv zeta. reflexivity.
Qed.

(** X8. [SendCommand] treats a command and the same command with its
    line feed alike: it does on [cmd] ended by a line feed what it does
    on [cmd]. *)
Theorem SendCommand_newline cmd c tr :
  (~ exists p, cmd = p +:+ LF) ->
  SendCommand L E (cmd +:+ LF) c tr = SendCommand L E cmd c tr.
Proof.
  intros Hn. rewrite !SendCommand_unfold. cbv zeta.
  apply HasSuffix_false in Hn. rewrite Hn.
  assert (strings.HasSuffix (cmd +:+ LF) LF = true) as ->
    by (apply HasSuffix_spec; eauto).
  reflexivity.
Qed.

End SendingMore.

Lemma Close_always_closes_witness :
  let c := mkClient "http://localhost:8888" "" "1" (Some 0%nat) in
  let E := Scripted.server Scripted.created [0%nat] in
  exists sent,
    (sent = [] \/
     exists data, sent = [EvWrite 0%nat websocket_TextMessage data]) /\
    let before := [] ++ sent ++ [EvSleep (500 * time_Millisecond)] in
    Close Scripted.lib E c []
    = (Ret (conn_Close E before 0%nat), c, before ++ [EvClose 0%nat]).
Proof.
  intros c E. apply (Close_always_closes Scripted.lib E c [] 0%nat).
  reflexivity.
Defined.

Lemma SendCommand_newline_witness :
  let c := mkClient "http://localhost:8888" "" "1" (Some 0%nat) in
  let E := Scripted.server Scripted.created [] in
  SendCommand Scripted.lib E ("ls" +:+ LF) c []
  = SendCommand Scripted.lib E "ls" c [].
Proof.
  intros c E. apply (SendCommand_newline Scripted.lib E "ls" c []).
  intros H. apply HasSuffix_spec in H. discriminate H.
Defined.

(** ** The receive loop: errors, unknown frames, bounds *)

Section RelayMore.

Context (L : Lib).

(** X9. A read error ends the receive loop, and what the connection
    would deliver after it is never received.  The error is logged only
    when it is a close error whose code is neither 1001 (going away) nor
    1006 (abnormal closure); any other error ends the loop silently. *)
Theorem ReadMessages_read_error k err script tr :
  (forall code,
     CloseCode err = Some code -> code <> 1001%Z -> code <> 1006%Z ->
     ReadMessages_loop L k (Err err :: script) tr =
       (Terminated,
        tr ++ [EvRead k; EvLog ("websocket error: " +:+ Error err)])) /\
  (CloseCode err = None \/ CloseCode err = Some 1001%Z
   \/ CloseCode err = Some 1006%Z ->
   ReadMessages_loop L k (Err err :: script) tr
   = (Terminated, tr ++ [EvRead k])).
Proof.
  rewrite ReadMessages_loop_cons. unfold ReadMessages_iter.
  unfold websocket_IsUnexpectedCloseError. split.
  - intros code -> H1 H2. cbn [existsb].
    unfold websocket_CloseGoingAway, websocket_CloseAbnormalClosure.
    apply Z.eqb_neq in H1, H2. rewrite H1, H2. reflexivity.
  - intros [-> | [-> | ->]]; reflexivity.
Qed.

(** X10. Frames of a kind the loop does not know are passed over: a
    message of two or more elements whose first element is not a string,
    or is a string other than [stdout], [setup] and [disconnect], and a
    [stdout] message whose second element is not a string, write nothing,
    log nothing and leave the loop running. *)
Theorem ReadMessages_ignores k message msg m0 m1 more script tr :
  json_Unmarshal L message = Ok msg ->
  msg = m0 :: m1 :: more ->
  (forall s, m0 <> VString s) \/
  (exists s, m0 = VString s /\ s <> "stdout" /\ s <> "setup"
             /\ s <> "disconnect") \/
  (m0 = VString "stdout" /\ forall s, m1 <> VString s) ->
  ReadMessages_loop L k (Ok message :: script) tr
  = ReadMessages_loop L k script (tr ++ [EvRead k]).
Proof.
  intros Hm -> Hc. rewrite ReadMessages_loop_cons.
  unfold ReadMessages_iter. rewrite Hm.
  cbn [length Nat.ltb Nat.leb lookup list_lookup]. cbv iota.
  destruct Hc as [Hn | [(s & -> & H1 & H2 & H3) | [-> Hn]]].
  - destruct m0; try reflexivity. now destruct (Hn s).
  - apply String.eqb_neq in H1, H2, H3. rewrite H1, H2, H3. reflexivity.
  - change ("stdout" =? "stdout")%string with true. cbv iota.
    destruct m1; try reflexivity. now destruct (Hn s).
Qed.

(** X11. A [stdout] message writes its second element as it is, with no
    line feed added, whatever follows the second element; a [setup]
    message of two or more elements is logged and nothing is written. *)
Theorem ReadMessages_stdout k message msg m1 more script tr :
  json_Unmarshal L message = Ok msg ->
  (forall output,
     msg = VString "stdout" :: VString output :: more ->
     ReadMessages_loop L k (Ok message :: script) tr
     = ReadMessages_loop L k script (tr ++ [EvRead k; EvStdout output])) /\
  (msg = VString "setup" :: m1 :: more ->
   ReadMessages_loop L k (Ok message :: script) tr
   = ReadMessages_loop L k script
       (tr ++ [EvRead k; EvLog "Terminal ready"])).
Proof.
  intros Hm. split; [intros output ->| intros ->];
    rewrite ReadMessages_loop_cons; unfold ReadMessages_iter; rewrite Hm;
    reflexivity.
Qed.

(** X12. A [disconnect] message of two or more elements ends the loop:
    it is logged, and what the connection would deliver after it is never
    received. *)
Theorem ReadMessages_disconnect k message m1 more script tr :
  json_Unmarshal L message = Ok (VString "disconnect" :: m1 :: more) ->
  ReadMessages_loop L k (Ok message :: script) tr
  = (Terminated, tr ++ [EvRead k; EvLog "Terminal disconnected"]).
Proof.
  intros Hm. rewrite ReadMessages_loop_cons. unfold ReadMessages_iter.
  rewrite Hm. reflexivity.
Qed.

(** The console and log calls of one turn. *)
Lemma ReadMessages_iter_events r :
  forallb (fun e => is_stdout e || is_log e) (fst (ReadMessages_iter L r))
  = true.
Proof.
  unfold ReadMessages_iter. destruct r as [message|err].
  2: { destruct (websocket_IsUnexpectedCloseError _ _); reflexivity. }
  destruct (json_Unmarshal L message) as [msg|]; [|reflexivity].
  destruct (length msg <? 2)%nat; [reflexivity|].
  destruct (msg !! 0%nat) as [[]|]; try reflexivity.
  repeat match goal with
         | |- context [if ?b then _ else _] => destruct b
         end; try reflexivity.
  destruct (msg !! 1%nat) as [[]|]; reflexivity.
Qed.

Lemma receives_app tr tr' :
  receives (tr ++ tr') = (receives tr + receives tr')%nat.
Proof.
  unfold receives, Trace. rewrite filter_app. apply List.length_app.
Qed.

Lemma receives_events evs :
  forallb (fun e => is_stdout e || is_log e) evs = true -> receives evs = 0%nat.
Proof.
  induction evs as [|e evs IH]; [reflexivity|]. cbn [forallb].
  intros [He Hevs]%andb_true_iff. change (e :: evs) with ([e] ++ evs).
  rewrite receives_app, (IH Hevs). destruct e; try discriminate; reflexivity.
Qed.

(** X13. The receive loop never panics, and it touches the connection
    only to receive: its calls are receives on its connection, writes to
    the console and log lines.  It issues at most one receive more than
    the connection delivers, and exactly that many when it is still
    running: it never receives after it has ended. *)
Theorem ReadMessages_bounds c k script :
  conn c = Some k ->
  let '(state, tr) := ReadMessages L c script in
  state <> Panicked /\
  forallb (fun e => match e with
                    | EvRead k' => Nat.eqb k k'
                    | e => is_stdout e || is_log e
                    end) tr = true /\
  (receives tr <= S (length script))%nat /\
  (state = Running <-> receives tr = S (length script)).
Proof.
  intros Hk. unfold ReadMessages. rewrite Hk.
  induction script as [|r script IH].
  - cbn. rewrite Nat.eqb_refl. repeat split; discriminate || auto.
  - rewrite ReadMessages_loop_cons.
    pose proof (ReadMessages_iter_events r) as Hev.
    pose proof (ReadMessages_iter_no_panic L r) as Hnp.
    destruct (ReadMessages_iter L r) as [evs ctl]. cbn [fst snd] in *.
    assert (Hpre : forallb (fun e => match e with
                                     | EvRead k' => Nat.eqb k k'
                                     | e => is_stdout e || is_log e
                                     end) (EvRead k :: evs) = true).
    { cbn [forallb]. rewrite Nat.eqb_refl. cbn [andb].
      clear -Hev. induction evs as [|e evs IHe]; [reflexivity|].
      cbn [forallb] in *. apply andb_true_iff in Hev as [He Hevs].
      rewrite (IHe Hevs), andb_true_r. destruct e; try discriminate;
        reflexivity. }
    assert (Hrec : receives (EvRead k :: evs) = 1%nat).
    { change (EvRead k :: evs) with ([EvRead k] ++ evs).
      rewrite receives_app, (receives_events _ Hev). reflexivity. }
    cbn [app]. destruct ctl; try congruence.
    + rewrite ReadMessages_loop_app.
      destruct (ReadMessages_loop L k script []) as [state tr].
      cbn [fst snd]. destruct IH as (IH1 & IH2 & IH3 & IH4).
      split; [exact IH1|]. rewrite forallb_app, Hpre, IH2.
      rewrite receives_app, Hrec. cbn [length].
      split; [reflexivity|]. split; [lia|].
      rewrite IH4. lia.
    + rewrite Hpre, Hrec. cbn [length].
      repeat split; try discriminate; try lia.
    + rewrite Hpre, Hrec. cbn [length].
      repeat split; try discriminate; try lia.
Qed.

End RelayMore.

Lemma ReadMessages_read_error_witness :
  ReadMessages_loop Replay.lib 0%nat
    [Err (mkError "websocket: close 1011" (Some 1011%Z));
     Ok (Scripted.wire ["stdout"; "a" +:+ LF])] []
  = (Terminated,
     [] ++ [EvRead 0%nat; EvLog "websocket error: websocket: close 1011"])
  /\
  ReadMessages_loop Replay.lib 0%nat
    [Err (mkError "websocket: close 1006" (Some 1006%Z));
     Ok (Scripted.wire ["stdout"; "a" +:+ LF])] []
  = (Terminated, [] ++ [EvRead 0%nat]) /\
  ReadMessages_loop Replay.lib 0%nat [Err (fmt_Errorf "EOF")] []
  = (Terminated, [] ++ [EvRead 0%nat]).
Proof.
  split; [|split].
  - apply (proj1 (ReadMessages_read_error Replay.lib 0%nat
                    (mkError "websocket: close 1011" (Some 1011%Z))
                    [Ok (Scripted.wire ["stdout"; "a" +:+ LF])] [])
             1011%Z); [reflexivity|discriminate|discriminate].
  - apply (proj2 (ReadMessages_read_error Replay.lib 0%nat
                    (mkError "websocket: close 1006" (Some 1006%Z))
                    [Ok (Scripted.wire ["stdout"; "a" +:+ LF])] [])).
    right; right; reflexivity.
  - apply (proj2 (ReadMessages_read_error Replay.lib 0%nat
                    (fmt_Errorf "EOF") [] [])).
    left; reflexivity.
Defined.

Lemma ReadMessages_ignores_witness :
  let more := [Ok (Scripted.wire ["stdout"; "a" +:+ LF])] in
  ReadMessages_loop Replay.lib 0%nat
    (Ok (Scripted.wire ["ping"; "x"]) :: more) []
  = ReadMessages_loop Replay.lib 0%nat more ([] ++ [EvRead 0%nat]) /\
  ReadMessages_loop Replay.lib 0%nat (Ok "[1,2]" :: more) []
  = ReadMessages_loop Replay.lib 0%nat more ([] ++ [EvRead 0%nat]) /\
  ReadMessages_loop Replay.lib 0%nat
    (Ok ("[" +:+ Scripted.quote "stdout" +:+ ",1]") :: more) []
  = ReadMessages_loop Replay.lib 0%nat more ([] ++ [EvRead 0%nat]).
Proof.
  intros more. split; [|split].
  - apply (ReadMessages_ignores Replay.lib 0%nat
             (Scripted.wire ["ping"; "x"]) [VString "ping"; VString "x"]
             (VString "ping") (VString "x") [] more [] eq_refl eq_refl).
    right; left. exists "ping". repeat split; discriminate.
  - apply (ReadMessages_ignores Replay.lib 0%nat
             "[1,2]" [Scripted.one; Replay.two]
             Scripted.one Replay.two [] more [] eq_refl eq_refl).
    left. discriminate.
  - apply (ReadMessages_ignores Replay.lib 0%nat
             ("[" +:+ Scripted.quote "stdout" +:+ ",1]")
             [VString "stdout"; Scripted.one]
             (VString "stdout") Scripted.one [] more [] eq_refl eq_refl).
    right; right. split; [reflexivity|discriminate].
Defined.

Lemma ReadMessages_stdout_witness :
  ReadMessages_loop Replay.lib 0%nat
    [Ok (Scripted.wire ["stdout"; "a"; "b"])] []
  = ReadMessages_loop Replay.lib 0%nat [] ([] ++ [EvRead 0%nat; EvStdout "a"])
  /\
  ReadMessages_loop Replay.lib 0%nat
    [Ok ("[" +:+ Scripted.quote "setup" +:+ ",{}]")] []
  = ReadMessages_loop Replay.lib 0%nat []
      ([] ++ [EvRead 0%nat; EvLog "Terminal ready"]).
Proof.
  split.
  - apply (proj1 (ReadMessages_stdout Replay.lib 0%nat
                    (Scripted.wire ["stdout"; "a"; "b"])
                    [VString "stdout"; VString "a"; VString "b"]
                    VNil [VString "b"] [] [] eq_refl) "a").
    reflexivity.
  - apply (proj2 (ReadMessages_stdout Replay.lib 0%nat
                    ("[" +:+ Scripted.quote "setup" +:+ ",{}]")
                    [VString "setup"; VObject ∅] (VObject ∅) [] [] []
                    eq_refl)).
    reflexivity.
Defined.

Lemma ReadMessages_disconnect_witness :
  ReadMessages_loop Replay.lib 0%nat
    [Ok ("[" +:+ Scripted.quote "disconnect" +:+ ",1]");
     Ok (Scripted.wire ["stdout"; "a" +:+ LF])] []
  = (Terminated, [] ++ [EvRead 0%nat; EvLog "Terminal disconnected"]).
Proof.
  apply (ReadMessages_disconnect Replay.lib 0%nat
           ("[" +:+ Scripted.quote "disconnect" +:+ ",1]") Scripted.one []
           [Ok (Scripted.wire ["stdout"; "a" +:+ LF])] []).
  reflexivity.
Defined.

Lemma ReadMessages_bounds_witness :
  let c := mkClient "http://localhost:8888" "" "1" (Some 0%nat) in
  let script := [Ok (Scripted.wire ["ping"; "x"]);
                 Ok (Scripted.wire ["stdout"; "a" +:+ LF]);
                 Err (fmt_Errorf "EOF");
                 Ok (Scripted.wire ["stdout"; "b" +:+ LF])] in
  let '(state, tr) := ReadMessages Replay.lib c script in
  state <> Panicked /\
  forallb (fun e => match e with
                    | EvRead k' => Nat.eqb 0%nat k'
                    | e => is_stdout e || is_log e
                    end) tr = true /\
  (receives tr <= S (length script))%nat /\
  (state = Running <-> receives tr = S (length script)).
Proof.
  intros c script.
  apply (ReadMessages_bounds Replay.lib c 0%nat script). reflexivity.
Defined.

(** ** The interactive loop *)

Section InteractiveMore.

Context (L : Lib) (E : Env).

Lemma InteractiveShell_loop_exit pre post : forall c tr,
  InteractiveShell_loop L E (pre ++ "exit" :: post) c tr
  = InteractiveShell_loop L E pre c tr.
Proof.
  induction pre as [|cmd pre IH]; intros c tr; [reflexivity|].
  cbn [app InteractiveShell_loop]. run.
  destruct (cmd =? "exit")%string; [reflexivity|].
  destruct (SendCommand L E cmd c _) as [[[[err|]|code|reason] c1] tr1];
    try reflexivity.
  apply IH.
Qed.

(** X14. Typing [exit] is to the interactive shell what the end of the
    input is: the line is not sent, the lines after it are never read,
    and the shell does exactly what it does when the input ends there. *)
Theorem InteractiveShell_exit_is_eof pre post c tr :
  InteractiveShell L E (pre ++ "exit" :: post) c tr
  = InteractiveShell L E pre c tr.
Proof.
  unfold InteractiveShell. run. apply InteractiveShell_loop_exit.
Qed.


End InteractiveMore.


Lemma InteractiveShell_loop_send_error_witness :
  let c := mkClient "http://localhost:8888" "" "1" (Some 0%nat) in
  let E := Scripted.server Scripted.created [0%nat] in
  let data := Scripted.wire ["stdin"; "ls" +:+ LF] in
  InteractiveShell_loop Scripted.lib E ["ls"; "pwd"] c [] =
    (Ret tt, c,
     [] ++ [EvStdout (LF +:+ "$ "); EvScan;
            EvWrite 0%nat websocket_TextMessage data;
            EvLog ("failed to send command: "
                   +:+ Error (fmt_Errorf "broken pipe"))]).
Proof.
  intros c E data.
  apply (InteractiveShell_loop_send_error Scripted.lib E "ls" ["pwd"] c []
           0%nat data (fmt_Errorf "broken pipe")).
  - discriminate.
  - reflexivity.
  - reflexivity.
  - reflexivity.
Defined.

(** ** The controller: failures and the end of the run *)

Section ControllerMore.

Context (L : Lib) (E : Env).

(** X18. Without [-term], when provisioning fails [main] logs the error
    and exits with status 1 at once: in the whole run nothing is dialled
    and nothing is written to or closed on a connection. *)
Theorem main_provision_failure fl stdin err c' tr' :
  termID fl = "" ->
  CreateTerminal L E (NewJupyterClient (serverURL fl) (flag_token fl)) []
  = (Ret (Some err), c', tr') ->
  let tr := tr' ++ [EvLog ("Failed to create terminal: " +:+ Error err)] in
  main L E fl stdin = (Exit 1, c', tr) /\
  forallb (fun e => negb (is_dial e) && negb (is_write e)
                    && negb (is_any_close e)) tr = true.
Proof.
  intros Ht Hc tr. split.
  - unfold main, main_client, main_startup, main_terminal. rewrite Ht.
    change (negb ("" =? "")%string) with false. cbv iota.
    run. rewrite Hc. reflexivity.
  - assert (Hw : within (fun e => negb (is_dial e) && negb (is_write e)
                                  && negb (is_any_close e))
                   (fun _ => tt) (CreateTerminal L E)).
    { apply CreateTerminal_within; [intros []|]; auto; discriminate. }
    destruct (Hw _ _ _ _ _ Hc) as (_ & ext & He & Hext).
    cbn [app] in He. subst tr. rewrite He, forallb_app, Hext. reflexivity.
Qed.

(** X19. When the connection cannot be established [main] logs the
    error and exits with status 1: nothing was written, the receive loop
    was not started, no line of input was read, and [Close] does not
    run. *)
Theorem main_connect_failure fl stdin c1 tr1 err c2 tr2 :
  main_terminal L E fl (NewJupyterClient (serverURL fl) (flag_token fl)) []
  = (Ret tt, c1, tr1) ->
  Connect L E c1 tr1 = (Ret (Some err), c2, tr2) ->
  let tr := tr2 ++ [EvLog ("Failed to connect: " +:+ Error err)] in
  main L E fl stdin = (Exit 1, c2, tr) /\
  forallb (fun e => negb (is_write e) && negb (is_any_close e)
                    && negb (is_scan e)
                    && match e with EvGoReadMessages => false | _ => true end)
    tr = true.
Proof.
  intros Ht Hc tr. split.
  - unfold main, main_client, main_startup, main_connect. run.
    rewrite Ht, Hc. reflexivity.
  - set (P := fun e => negb (is_write e) && negb (is_any_close e)
                       && negb (is_scan e)
                       && match e with
                          | EvGoReadMessages => false
                          | _ => true
                          end).
    assert (Hw1 : within P (fun _ => tt) (main_terminal L E fl)).
    { apply main_terminal_within; [intros []|]; auto; discriminate. }
    assert (Hw2 : within P (fun _ => tt) (Connect L E)).
    { apply Connect_within; [intros []|]; auto; discriminate. }
    destruct (Hw1 _ _ _ _ _ Ht) as (_ & ext1 & He1 & Hext1).
    destruct (Hw2 _ _ _ _ _ Hc) as (_ & ext2 & He2 & Hext2).
    cbn [app] in He1. subst tr.
    rewrite He2, He1, !forallb_app, Hext1, Hext2. reflexivity.
Qed.

(** The startup ends by returning or by exit status 1. *)
Lemma main_startup_ends fl c tr o c1 tr1 :
  main_startup L E fl c tr = (o, c1, tr1) -> o = Ret tt \/ o = Exit 1%Z.
Proof.
  unfold main_startup, main_terminal, main_connect. run.
  destruct (negb (termID fl =? "")%string).
  - destruct (Connect_returns L E (set_terminalID (termID fl) c)
                (tr ++ [EvStdout ("Using existing terminal: "
                                   +:+ terminalID
                                         (set_terminalID (termID fl) c)
                                   +:+ LF)]))
      as (r & c' & tr' & Hc).
    rewrite Hc. destruct r; intros [= <- <- <-]; auto.
  - destruct (CreateTerminal_returns L E c tr) as (r & c' & tr' & Hc).
    rewrite Hc. destruct r; [intros [= <- <- <-]; auto|].
    destruct (Connect_returns L E c' tr') as (r2 & c2 & tr2 & Hc2).
    rewrite Hc2. destruct r2; intros [= <- <- <-]; auto.
Qed.

(** The input loop, in either mode, makes no call but those of
    [input_event], and leaves the client as it is. *)
Lemma main_input_events fl stdin {B} (f : JupyterClient -> B) :
  within input_event f (main_input L E fl stdin).
Proof.
  assert (Hloop : forall l, within input_event f
                              (InteractiveShell_loop L E l)).
  { induction l as [|cmd l IH]; cbn [InteractiveShell_loop]; expose;
      repeat first [ apply SendCommand_within; intros []; solve [auto]
                   | exact IH
                   | within_step ]. }
  unfold main_input, InteractiveShell. expose.
  repeat first [ apply SendCommand_within; intros []; solve [auto]
               | apply Hloop
               | within_step ].
Qed.

(** The input loop ends by returning or by exit status 1. *)
Lemma main_input_ends fl stdin c tr k o c' tr' :
  conn c = Some k ->
  main_input L E fl stdin c tr = (o, c', tr') -> o = Ret tt \/ o = Exit 1%Z.
Proof.
  intros Hk. unfold main_input.
  destruct (0 <? length (flag_Args fl))%nat.
  - run. rewrite SendCommand_unfold. cbv zeta.
    destruct (json_Marshal L _) as [data|err];
      [rewrite Hk; destruct (conn_WriteMessage E tr k _ data)|];
      intros [= <- <- <-]; auto.
  - destruct (InteractiveShell_returns L E stdin c tr k Hk) as [ext He].
    rewrite He. intros [= <- <- <-]. auto.
Qed.

(** X20. However the servers answer and whatever is typed, [main]
    never panics, and it ends in one of two ways: it exits with status 1
    without having closed any connection, or it returns after one
    teardown, the 500 ms sleep and the close of the client's connection
    being its last two calls and its only close. *)
Theorem main_ends fl stdin :
  let '(o, c, tr) := main L E fl stdin in
  (o = Exit 1%Z /\
   forallb (fun e => negb (is_any_close e)) tr = true) \/
  (o = Ret tt /\
   exists pre k,
     conn c = Some k /\
     tr = pre ++ [EvSleep (500 * time_Millisecond); EvClose k] /\
     forallb (fun e => negb (is_any_close e)) pre = true).
Proof.
  set (P := fun e => negb (is_any_close e)).
  rewrite main_unfold.
  destruct (main_startup L E fl _ []) as [[o1 c1] tr1] eqn:Hs.
  assert (Hw1 : within P (fun _ => tt) (main_startup L E fl)).
  { apply main_startup_within; try (intros []); auto; discriminate. }
  destruct (Hw1 _ _ _ _ _ Hs) as (_ & ext1 & He1 & Hext1).
  cbn [app] in He1. subst tr1.
  destruct (main_startup_ends _ _ _ _ _ _ Hs) as [-> | ->]; [|left; auto].
  destruct (main_startup_ok L E _ _ _ _ _ Hs) as [k Hk].
  unfold defer, main_session. run.
  destruct (main_input L E fl stdin c1 (ext1 ++ [EvGoReadMessages]))
    as [[o2 c2] tr2] eqn:Hi.
  destruct (main_input_events fl stdin (fun c => c) _ _ _ _ _ Hi)
    as (Hc2 & ext2 & -> & Hext2). subst c2.
  assert (Hpre : forallb P ((ext1 ++ [EvGoReadMessages]) ++ ext2) = true).
  { rewrite !forallb_app, Hext1. cbn [forallb P is_any_close negb andb].
    clear -Hext2. induction ext2 as [|e l IH]; [reflexivity|].
    cbn [forallb] in *. apply andb_true_iff in Hext2 as [He Hl].
    rewrite (IH Hl), andb_true_r. destruct e; try discriminate;
      reflexivity. }
  destruct (main_input_ends _ _ _ _ _ _ _ _ Hk Hi) as [-> | ->];
    [|left; auto].
  unfold Close. run. rewrite Hk. rewrite SendCommand_unfold. cbv zeta.
  destruct (json_Marshal L _) as [data|err]; rewrite ?Hk;
    cbv beta iota zeta; right; (split; [reflexivity|]);
    eexists _, k; (split; [first [exact Hk | reflexivity]|]); split.
  - rewrite <- (app_assoc _ [EvSleep _] [EvClose k]). reflexivity.
  - rewrite !forallb_app in Hpre. rewrite !forallb_app, Hpre. reflexivity.
  - rewrite <- (app_assoc _ [EvSleep _] [EvClose k]). reflexivity.
  - rewrite !forallb_app in Hpre. rewrite !forallb_app, Hpre. reflexivity.
Qed.

End ControllerMore.

Lemma main_provision_failure_witness :
  let fl := mkFlags "http://localhost:8888" "" "" ["ls"] in
  let failed := mkResponse "500 Internal Server Error" 500 "boom" in
  let E := Scripted.server (Ok failed) [] in
  let c := NewJupyterClient "http://localhost:8888" "" in
  let err := fmt_Errorf
    "failed to create terminal: 500 Internal Server Error - boom" in
  let tr :=
    [EvHttpDo (mkRequest "POST" "http://localhost:8888/api/terminals" ∅);
     EvBodyClose]
    ++ [EvLog ("Failed to create terminal: " +:+ Error err)] in
  main Scripted.lib E fl ["pwd"] = (Exit 1, c, tr) /\
  forallb (fun e => negb (is_dial e) && negb (is_write e)
                    && negb (is_any_close e)) tr = true.
Proof.
  intros fl failed E c err tr.
  apply (main_provision_failure Scripted.lib E fl ["pwd"] err c
           [EvHttpDo (mkRequest "POST"
                        "http://localhost:8888/api/terminals" ∅);
            EvBodyClose]).
  - reflexivity.
  - vm_compute. reflexivity.
Defined.

Lemma main_connect_failure_witness :
  let fl := mkFlags "http://localhost:8888" "" "7" ["ls"] in
  let E := Replay.unreachable Scripted.created in
  let c := mkClient "http://localhost:8888" "" "7" None in
  let tr2 :=
    [EvStdout ("Using existing terminal: 7" +:+ LF);
     EvStdout ("Connecting to: ws://localhost:8888/terminals/websocket/7"
               +:+ LF);
     EvDial "ws://localhost:8888/terminals/websocket/7"] in
  let err := fmt_Errorf "websocket dial error: connection refused" in
  let tr := tr2 ++ [EvLog ("Failed to connect: " +:+ Error err)] in
  main Scripted.lib E fl ["pwd"] = (Exit 1, c, tr) /\
  forallb (fun e => negb (is_write e) && negb (is_any_close e)
                    && negb (is_scan e)
                    && match e with EvGoReadMessages => false | _ => true end)
    tr = true.
Proof.
  intros fl E c tr2 err tr.
  apply (main_connect_failure Scripted.lib E fl ["pwd"] c
           [EvStdout ("Using existing terminal: 7" +:+ LF)] err c tr2).
  - vm_compute. reflexivity.
  - vm_compute. reflexivity.
Defined.

Lemma main_interactive_teardown_witness :
  let fl := mkFlags "http://localhost:8888" "" "7" [] in
  let E := Scripted.server Scripted.created [1%nat] in
  let c1 := mkClient "http://localhost:8888" "" "7" (Some 0%nat) in
  let tr1 :=
    [EvStdout ("Using existing terminal: 7" +:+ LF);
     EvStdout ("Connecting to: ws://localhost:8888/terminals/websocket/7"
               +:+ LF);
     EvDial "ws://localhost:8888/terminals/websocket/7"] in
  let bye := Scripted.wire ["stdin"; "exit" +:+ LF] in
  exists k mid,
    conn c1 = Some k /\
    main Scripted.lib E fl ["ls"; "pwd"; "whoami"] =
      (Ret tt, c1,
       ((tr1 ++ EvGoReadMessages :: mid)
        ++ [EvStdout (LF +:+ "Goodbye!" +:+ LF)])
       ++ [EvWrite k websocket_TextMessage bye;
           EvSleep (500 * time_Millisecond);
           EvClose k]).
Proof.
  intros fl E c1 tr1 bye.
  apply (main_interactive_teardown Scripted.lib E fl
           ["ls"; "pwd"; "whoami"] c1 tr1 bye).
  - reflexivity.
  - vm_compute. reflexivity.
  - reflexivity.
Defined.
